(** * Channel membership of the fabric SDK: trust-manager assembly,
      identity validation and signature verification.

    Shallow embedding of [pkg/fab/channel/membership/membership.go].
    The Go packages the file calls into appear as modules of the same name
    ([errors], [mb], [pem], [x509], [proto], [verifier], [msp]), so that the
    embedded functions read like their source.

    Effects.  The membership code talks to four collaborators: the package
    logger, the certificate-date verifier (which reads the clock), the MSP
    manager with the identities it deserialises, and the endpoint
    configuration that owns the TLS trust pool.  Every call to one of them is
    recorded, in program order, in a trace of [event]s; a function of the
    source with such calls returns its Go result together with the trace it
    produced (the writer monad [M]). *)

From Stdlib Require Import ZArith List Bool Lia Strings.Byte.
From stdpp Require Import gmap strings list fin_maps.
Import ListNotations.
Open Scope string_scope.
Open Scope Z_scope.
Open Scope list_scope.

(** ** Basic data *)

(** Go's [[]byte]. *)
Definition bytes : Type := list byte.

(** [time.Time], as seconds on the UTC time line. *)
Definition Time : Type := Z.

(** Go's [len] of a slice, as an [int]. *)
Definition len {A : Type} (l : list A) : Z := Z.of_nat (length l).

(** ** Package [errors] (github.com/pkg/errors) and Go's [error] values *)

Module errors.

(** The error values the membership code builds or passes on.
    [TemporalValidity] is the error of the certificate-date verifier, the
    [TemporalValidityError] of the design document; [UnknownTrustDomain] is
    the lookup miss of the MSP manager, its [UnknownTrustDomainError]. *)
Inductive error : Type :=
| New (message : string)
| Errorf (format : string) (args : list Z)
| Wrap (err : error) (message : string)
| WithMessage (err : error) (message : string)
| TemporalValidity
| UnknownTrustDomain (mspid : string).

(** [errors.Cause]: the innermost error under the wrappers. *)
Fixpoint Cause (e : error) : error :=
  match e with
  | Wrap e' _ => Cause e'
  | WithMessage e' _ => Cause e'
  | _ => e
  end.

End errors.

Abbreviation error := errors.error.

(** A Go result pair [(T, error)] of which exactly one half is set. *)
Inductive result (A : Type) : Type :=
| Ok (a : A)
| Err (e : error).
Arguments Ok {A} a.
Arguments Err {A} e.

Definition is_Err {A : Type} (r : result A) : Prop :=
  match r with Err _ => True | Ok _ => False end.

Definition is_Ok {A : Type} (r : result A) : Prop :=
  match r with Ok _ => True | Err _ => False end.

(** The error kinds of the design document, as the values the code returns. *)
Definition UnsupportedProviderType (mspType : Z) : error :=
  errors.Errorf "MSP type not supported: %v" [mspType].
Definition MissingPayload : error :=
  errors.Errorf "MSP configuration missing the payload in the 'Config' property" [].
Definition MalformedConfig (err : error) : error :=
  errors.Wrap err "unmarshal FabricMSPConfig from config failed".
Definition MissingName : error :=
  errors.New "MSP Configuration missing name".
Definition MissingRootCerts : error :=
  errors.New "MSP Configuration missing root certificates required for validating signing certificates".

(** ** Package [mb] (protos/msp): the wire messages *)

Module mb.

Record SerializedIdentity : Type := {
  Mspid : string;
  IdBytes : bytes
}.

Record MSPConfig : Type := {
  Type_ : Z;
  Config : bytes
}.

Record FabricOUIdentifier : Type := {
  Certificate : bytes;
  OrganizationalUnitIdentifier : string
}.

Record FabricMSPConfig : Type := {
  Name : string;
  RootCerts : list bytes;
  IntermediateCerts : list bytes;
  OrganizationalUnitIdentifiers : list FabricOUIdentifier;
  TlsRootCerts : list bytes;
  TlsIntermediateCerts : list bytes
}.

End mb.

(** ** Packages [pem] and [x509] (Go standard library) *)

Module x509.

(** The fields of [x509.Certificate] the membership code reads. *)
Record Certificate : Type := {
  SerialNumber : Z;
  NotBefore : Time;
  NotAfter : Time
}.

Class API : Type := {
  ParseCertificate : bytes -> result Certificate
}.

End x509.

Module pem.

Record Block : Type := {
  Type_ : string;
  Headers : gmap string string;
  Bytes : bytes
}.

(** [pem.Decode data] returns the next block and the remainder of the input;
    when it finds a block the remainder is a proper suffix of the input. *)
Class API : Type := {
  Decode : bytes -> option Block * bytes;
  Decode_rest : forall data b rest,
    Decode data = (Some b, rest) -> (length rest < length data)%nat
}.

End pem.

(** ** Package [proto] (github.com/golang/protobuf) *)

Module proto.

Class API : Type := {
  Unmarshal_SerializedIdentity : bytes -> result mb.SerializedIdentity;
  Unmarshal_FabricMSPConfig : bytes -> result mb.FabricMSPConfig
}.

End proto.

(** ** Events and the trace monad *)

(** An argument of a logger call. *)
Inductive arg : Type :=
| AStr (s : string)
| AInt (n : Z)
| AErr (e : error).

Inductive LogCall : Type := Debugf | Warnf | Warn | Errorf.

Inductive event : Type :=
| Log (fn : LogCall) (args : list arg)
    (* logger.Debugf / Warnf / Warn / Errorf *)
| ValidateCertificateDates_call (cert : x509.Certificate)
    (* verifier.ValidateCertificateDates(cert) *)
| DeserializeIdentity_call (serializedID : bytes)
    (* mspManager.DeserializeIdentity(serializedID) *)
| Identity_Validate_call
    (* id.Validate() *)
| Identity_Verify_call (msg sig : bytes)
    (* id.Verify(msg, sig) *)
| TLSCACertPool_call (cert : x509.Certificate).
    (* config.TLSCACertPool(cert): registration with the TLS trust pool *)

Definition M (A : Type) : Type := (A * list event)%type.

Definition ret {A : Type} (a : A) : M A := (a, []).

Definition bind {A B : Type} (m : M A) (k : A -> M B) : M B :=
  let (a, t1) := m in
  let (b, t2) := k a in
  (b, t1 ++ t2).

Definition emit (e : event) : M unit := (tt, [e]).

(** The value and the trace of a computation. *)
Definition value {A : Type} (m : M A) : A := fst m.
Definition trace {A : Type} (m : M A) : list event := snd m.

Notation "'let!' x ':=' m 'in' k" := (bind m (fun x => k))
  (at level 10, x name, m at level 100, k at level 200).
Notation "'exec' m 'in' k" := (bind m (fun _ => k))
  (at level 10, m at level 100, k at level 200).

(** A [for _, x := range l] loop whose body only has effects. *)
Fixpoint for_range {A : Type} (l : list A) (body : A -> M unit) : M unit :=
  match l with
  | [] => ret tt
  | x :: rest => exec body x in for_range rest body
  end.

Definition logger (fn : LogCall) (args : list arg) : M unit :=
  emit (Log fn args).

(** ** Package [verifier] (pkg/client/common/verifier) *)

Module verifier.

(** Modelled from the spec: [verifier.ValidateCertificateDates], whose source
    file is not among the sources.  The design document (4.1) gives its
    contract: it fails when [now < notBefore] or [now > notAfter], with a
    temporal-validity error, and has no other effect.  The clock is the
    explicit argument [now]. *)
Definition ValidateCertificateDates (now : Time) (cert : x509.Certificate)
  : option error :=
  if (now <? x509.NotBefore cert) || (x509.NotAfter cert <? now)
  then Some errors.TemporalValidity
  else None.

End verifier.

(** ** Package [msp] (internal/github.com/hyperledger/fabric/msp) *)

Module msp.

(** The MSP interface and the identities it produces, for a given crypto
    suite type.  [MSP_Setup] updates its receiver and returns Go's [error]. *)
Class Provider (CryptoSuite : Type) : Type := {
  MSP : Type;
  Identity : Type;
  MSPVersion : Type;
  FABRIC : Z;
  MSPv1_0 : MSPVersion;
  NewBccspMsp : MSPVersion -> CryptoSuite -> result MSP;
  MSP_Setup : MSP -> mb.MSPConfig -> MSP * option error;
  GetIdentifier : MSP -> result string;
  GetTLSRootCerts : MSP -> list bytes;
  GetTLSIntermediateCerts : MSP -> list bytes;
  MSP_DeserializeIdentity : MSP -> bytes -> result Identity;
  Identity_Validate : Identity -> option error;
  Identity_Verify : Identity -> bytes -> bytes -> option error
}.

(** The MSP manager interface.  [MSPManager_Setup] updates its receiver. *)
Class Manager {CryptoSuite : Type} (P : Provider CryptoSuite) : Type := {
  MSPManager : Type;
  NewMSPManager : MSPManager;
  MSPManager_Setup : MSPManager -> list MSP -> MSPManager * option error;
  DeserializeIdentity : MSPManager -> bytes -> result Identity
}.

End msp.

(** ** The membership package *)

(** [fab.ChannelCfg], of which the membership code reads [MSPs()]. *)
Record ChannelCfg : Type := {
  MSPs : list mb.MSPConfig
}.

(** The [Context] struct: the providers, of which the membership code uses
    the crypto suite, and the endpoint configuration.  The endpoint
    configuration is the owner of the TLS trust pool; the calls made to it
    are the [TLSCACertPool_call] events of the trace. *)
Record Context (CS : Type) : Type := {
  CryptoSuite : CS
}.
Arguments CryptoSuite {CS} c.

Section Membership.

Context {CS : Type}.
Context {Pem : pem.API} {X509 : x509.API} {Proto : proto.API}.
Context {P : msp.Provider CS} {Mgr : msp.Manager P}.

(** The clock read by [verifier.ValidateCertificateDates]. *)
Variable now : Time.

Record identityImpl : Type := {
  mspManager : msp.MSPManager
}.

(** The call [verifier.ValidateCertificateDates(cert)]. *)
Definition verifier_ValidateCertificateDates (cert : x509.Certificate)
  : M (option error) :=
  exec emit (ValidateCertificateDates_call cert) in
  ret (verifier.ValidateCertificateDates now cert).

(** The call [mspManager.DeserializeIdentity(serializedID)]. *)
Definition mspManager_DeserializeIdentity (m : msp.MSPManager)
  (serializedID : bytes) : M (result msp.Identity) :=
  exec emit (DeserializeIdentity_call serializedID) in
  ret (msp.DeserializeIdentity m serializedID).

(** The calls [id.Validate()] and [id.Verify(msg, sig)]. *)
Definition id_Validate (id : msp.Identity) : M (option error) :=
  exec emit Identity_Validate_call in
  ret (msp.Identity_Validate id).

Definition id_Verify (id : msp.Identity) (msg sig : bytes) : M (option error) :=
  exec emit (Identity_Verify_call msg sig) in
  ret (msp.Identity_Verify id msg sig).

(** The call [config.TLSCACertPool(cert)], whose results are dropped. *)
Definition config_TLSCACertPool (cert : x509.Certificate) : M unit :=
  emit (TLSCACertPool_call cert).

Definition areCertDatesValid (serializedID : bytes) : M (option error) :=
  match proto.Unmarshal_SerializedIdentity serializedID with
  | Err err =>
      ret (Some (errors.Wrap err "could not deserialize a SerializedIdentity"))
  | Ok sID =>
      match fst (pem.Decode (mb.IdBytes sID)) with
      | None => ret (Some (errors.New "could not decode the PEM structure"))
      | Some bl =>
          match x509.ParseCertificate (pem.Bytes bl) with
          | Err err => ret (Some err)
          | Ok cert =>
              let! err := verifier_ValidateCertificateDates cert in
              match err with
              | Some err =>
                  exec logger Warnf
                    [AStr "Certificate error '%v' for cert '%v'";
                     AErr err; AInt (x509.SerialNumber cert)] in
                  ret (Some err)
              | None => ret None
              end
          end
      end
  end.

Definition Validate (i : identityImpl) (serializedID : bytes)
  : M (option error) :=
  let! err := areCertDatesValid serializedID in
  match err with
  | Some err =>
      exec logger Errorf [AStr "Cert error %v"; AErr err] in
      ret (Some err)
  | None =>
      let! r := mspManager_DeserializeIdentity (mspManager i) serializedID in
      match r with
      | Err err => ret (Some err)
      | Ok id => id_Validate id
      end
  end.

Definition Verify (i : identityImpl) (serializedID msg sig : bytes)
  : M (option error) :=
  let! r := mspManager_DeserializeIdentity (mspManager i) serializedID in
  match r with
  | Err err => ret (Some err)
  | Ok id => id_Verify id msg sig
  end.

Definition getFabricConfig (config : mb.MSPConfig) : result mb.FabricMSPConfig :=
  match proto.Unmarshal_FabricMSPConfig (mb.Config config) with
  | Err err =>
      Err (errors.Wrap err "unmarshal FabricMSPConfig from config failed")
  | Ok fabricConfig =>
      if String.eqb (mb.Name fabricConfig) ""
      then Err (errors.New "MSP Configuration missing name")
      else if len (mb.RootCerts fabricConfig) =? 0
      then Err (errors.New "MSP Configuration missing root certificates required for validating signing certificates")
      else Ok fabricConfig
  end.

(** The body of the loop of [addCertsToConfig].  The loop runs while
    [len(pemCerts) > 0]; [fuel] bounds the number of iterations, and the
    result is [false] exactly when the bound was hit with input left. *)
Fixpoint addCertsToConfig_loop (fuel : nat) (pemCerts : bytes) : M bool :=
  if 0 <? len pemCerts then
    match fuel with
    | O => ret false
    | S fuel' =>
        let (block, pemCerts) := pem.Decode pemCerts in
        match block with
        | None => ret true                                  (* break *)
        | Some block =>
            if negb (String.eqb (pem.Type_ block) "CERTIFICATE")
               || negb (Z.of_nat (size (pem.Headers block)) =? 0)
            then addCertsToConfig_loop fuel' pemCerts       (* continue *)
            else
              match x509.ParseCertificate (pem.Bytes block) with
              | Err _ => addCertsToConfig_loop fuel' pemCerts  (* continue *)
              | Ok cert =>
                  let! err := verifier_ValidateCertificateDates cert in
                  exec (match err with
                        | Some err => logger Warn [AStr "%v"; AErr err]
                        | None => ret tt
                        end) in
                  exec config_TLSCACertPool cert in
                  addCertsToConfig_loop fuel' pemCerts
              end
        end
    end
  else ret true.

(** addCertsToConfig adds cert bytes to config TLSCACertPool.  Every
    iteration that does not leave the loop shortens [pemCerts], so its length
    bounds the number of iterations. *)
Definition addCertsToConfig (pemCerts : bytes) : M unit :=
  exec addCertsToConfig_loop (length pemCerts) pemCerts in
  ret tt.

(** One iteration of the loop of [loadMSPs] (lines 121 to 158 of the
    source): the MSP built from [config], or the error the loop returns. *)
Definition loadMSPs_body (config : mb.MSPConfig) (cs : CS) : M (result msp.MSP) :=
  let mspType := mb.Type_ config in
  if negb (mspType =? msp.FABRIC) then
    ret (Err (errors.Errorf "MSP type not supported: %v" [mspType]))
  else if len (mb.Config config) =? 0 then
    ret (Err (errors.Errorf "MSP configuration missing the payload in the 'Config' property" []))
  else
    match getFabricConfig config with
    | Err err => ret (Err err)
    | Ok fabricConfig =>
        (* get the application org names *)
        let orgUnits := mb.OrganizationalUnitIdentifiers fabricConfig in
        exec for_range orgUnits (fun orgUnit =>
               logger Debugf [AStr "loadMSPs - found org of :: %s";
                              AStr (mb.OrganizationalUnitIdentifier orgUnit)]) in
        match msp.NewBccspMsp msp.MSPv1_0 cs with
        | Err err => ret (Err (errors.Wrap err "instantiate MSP failed"))
        | Ok newMSP =>
            let (newMSP, err) := msp.MSP_Setup newMSP config in
            match err with
            | Some err => ret (Err (errors.Wrap err "configure MSP failed"))
            | None =>
                match msp.GetIdentifier newMSP with
                | Err err1 => ret (Err (errors.Wrap err1 "failed to get identifier"))
                | Ok mspID =>
                    exec logger Debugf [AStr "loadMSPs - adding msp=%s"; AStr mspID] in
                    ret (Ok newMSP)
                end
            end
        end
    end.

(** The loop of [loadMSPs] over the remaining configs, with the MSPs
    appended so far. *)
Fixpoint loadMSPs_loop (mspConfigs : list mb.MSPConfig) (cs : CS)
  (msps : list msp.MSP) : M (result (list msp.MSP)) :=
  match mspConfigs with
  | [] => ret (Ok msps)
  | config :: rest =>
      let! r := loadMSPs_body config cs in
      match r with
      | Err err => ret (Err err)
      | Ok newMSP => loadMSPs_loop rest cs (msps ++ [newMSP])
      end
  end.

Definition loadMSPs (mspConfigs : list mb.MSPConfig) (cs : CS)
  : M (result (list msp.MSP)) :=
  exec logger Debugf [AStr "loadMSPs - start number of msps=%d";
                      AInt (len mspConfigs)] in
  let! r := loadMSPs_loop mspConfigs cs [] in
  match r with
  | Err err => ret (Err err)
  | Ok msps =>
      exec logger Debugf [AStr "loadMSPs - loaded %d MSPs"; AInt (len msps)] in
      ret (Ok msps)
  end.

Definition createMSPManager (ctx : Context CS) (cfg : ChannelCfg)
  : M (result msp.MSPManager) :=
  let mspManager := msp.NewMSPManager in
  if 0 <? len (MSPs cfg) then
    let! r := loadMSPs (MSPs cfg) (CryptoSuite ctx) in
    match r with
    | Err err =>
        ret (Err (errors.WithMessage err "load MSPs from config failed"))
    | Ok msps =>
        let (mspManager, err) := msp.MSPManager_Setup mspManager msps in
        match err with
        | Some err => ret (Err (errors.WithMessage err "MSPManager Setup failed"))
        | None =>
            exec for_range msps (fun m =>
                   exec for_range (msp.GetTLSRootCerts m) addCertsToConfig in
                   for_range (msp.GetTLSIntermediateCerts m) addCertsToConfig) in
            ret (Ok mspManager)
        end
    end
  else ret (Ok mspManager).

(** New member identity *)
Definition New (ctx : Context CS) (cfg : ChannelCfg) : M (result identityImpl) :=
  let! r := createMSPManager ctx cfg in
  match r with
  | Err err => ret (Err err)
  | Ok m => ret (Ok {| mspManager := m |})
  end.

End Membership.

(** ** The MSP manager as a registry *)

Section Registry.

Context {CS : Type} {Proto : proto.API} (P : msp.Provider CS).

(** Modelled from the spec: [MSPManager.Setup] of package [msp], whose source
    file is not among the sources.  The design document (3, 4.3) describes the
    manager as a mapping from trust-domain identifier to trust domain with
    unique keys, into which all the built domains are keyed by identifier, in
    sequence, and which is either fully populated, with every configured MSP,
    or not built at all; a successful assembly never has fewer entries than
    configs (8).  Retrieving an identifier can fail (4.2, step 7).  A domain
    whose identifier is already a key cannot be keyed without losing a
    domain, so the setup fails there as well: no domain is ever replaced. *)
Fixpoint Registry_Setup (reg : gmap string msp.MSP) (msps : list msp.MSP)
  : gmap string msp.MSP * option error :=
  match msps with
  | [] => (reg, None)
  | m :: rest =>
      match msp.GetIdentifier m with
      | Err err => (reg, Some err)
      | Ok mspID =>
          match reg !! mspID with
          | Some _ => (reg, Some (errors.New "MSP identifier is not unique"))
          | None => Registry_Setup (<[mspID := m]> reg) rest
          end
      end
  end.

(** Modelled from the spec: [MSPManager.DeserializeIdentity] (4.3,
    Resolution; 4.4, step 5): extract the tag of the serialized identity, look
    it up in the registry, fail on a miss, and deserialize the identity
    through the domain found. *)
Definition Registry_DeserializeIdentity (reg : gmap string msp.MSP)
  (serializedID : bytes) : result msp.Identity :=
  match proto.Unmarshal_SerializedIdentity serializedID with
  | Err err => Err err
  | Ok sID =>
      match reg !! mb.Mspid sID with
      | None => Err (errors.UnknownTrustDomain (mb.Mspid sID))
      | Some m => msp.MSP_DeserializeIdentity m serializedID
      end
  end.

(** Modelled from the spec: the MSP manager of package [msp]; a new manager
    has an empty registry (3: an empty configuration list yields a valid,
    empty manager). *)
#[export] Instance Registry : msp.Manager P := {|
  msp.MSPManager := gmap string msp.MSP;
  msp.NewMSPManager := ∅;
  msp.MSPManager_Setup := Registry_Setup;
  msp.DeserializeIdentity := Registry_DeserializeIdentity
|}.


End Registry.

(** ** A small concrete world

    Stand-ins for the decoding libraries and for the MSP implementation, on
    which the embedded functions can be run.  Wire formats are reduced to a
    few bytes each:
    - a PEM input is a sequence of two-byte blocks, a tag and a body; tag [C]
      is a CERTIFICATE block, [K] a PRIVATE KEY block, [H] a CERTIFICATE block
      with a header; anything else is not a block;
    - a certificate body [n > 0] is the certificate with serial number [n],
      valid from time [100] to time [100 * n];
    - a serialized identity is the byte of its MSP id followed by a PEM
      input;
    - an MSP payload is three bytes: the name, the body of the root
      certificate and the body of the TLS root certificate, each absent when
      the byte is zero; as with protobuf, the empty payload decodes to the
      message with every field unset. *)

Module Fixture.

Definition byte_string (b : byte) : string :=
  String (Ascii.ascii_of_byte b) EmptyString.

Definition Decode (data : bytes) : option pem.Block * bytes :=
  match data with
  | tag :: body :: rest =>
      if Byte.eqb tag "C"%byte then
        (Some {| pem.Type_ := "CERTIFICATE"; pem.Headers := ∅;
                 pem.Bytes := [body] |}, rest)
      else if Byte.eqb tag "K"%byte then
        (Some {| pem.Type_ := "PRIVATE KEY"; pem.Headers := ∅;
                 pem.Bytes := [body] |}, rest)
      else if Byte.eqb tag "H"%byte then
        (Some {| pem.Type_ := "CERTIFICATE";
                 pem.Headers := {[ "Proc-Type" := "4,ENCRYPTED" ]};
                 pem.Bytes := [body] |}, rest)
      else (None, data)
  | _ => (None, data)
  end.

Lemma Decode_rest (data : bytes) (b : pem.Block) (rest : bytes) :
  Decode data = (Some b, rest) -> (length rest < length data)%nat.
Proof.
  unfold Decode.
  destruct data as [|tag [|body tl]]; try discriminate.
  destruct (Byte.eqb tag "C"); [|destruct (Byte.eqb tag "K");
    [|destruct (Byte.eqb tag "H")]];
    intros E; inversion E; subst; simpl; lia.
Qed.

#[export] Instance Pem : pem.API := {|
  pem.Decode := Decode;
  pem.Decode_rest := Decode_rest
|}.

Definition ParseCertificate (der : bytes) : result x509.Certificate :=
  match der with
  | [b] =>
      let n := Z.of_N (Byte.to_N b) in
      if n =? 0 then Err (errors.New "x509: malformed certificate")
      else Ok {| x509.SerialNumber := n;
                 x509.NotBefore := 100;
                 x509.NotAfter := 100 * n |}
  | _ => Err (errors.New "x509: malformed certificate")
  end.

#[export] Instance X509 : x509.API := {|
  x509.ParseCertificate := ParseCertificate
|}.

Definition Unmarshal_SerializedIdentity (data : bytes)
  : result mb.SerializedIdentity :=
  match data with
  | [] => Ok {| mb.Mspid := ""; mb.IdBytes := [] |}
  | m :: rest =>
      if Byte.eqb m "255"%byte
      then Err (errors.New "proto: cannot parse invalid wire-format data")
      else Ok {| mb.Mspid := byte_string m; mb.IdBytes := rest |}
  end.

Definition pem_of (body : byte) : list bytes :=
  if Byte.eqb body "000"%byte then [] else [["C"%byte; body]].

Definition Unmarshal_FabricMSPConfig (data : bytes)
  : result mb.FabricMSPConfig :=
  match data with
  | [] =>
      Ok {| mb.Name := ""; mb.RootCerts := []; mb.IntermediateCerts := [];
            mb.OrganizationalUnitIdentifiers := []; mb.TlsRootCerts := [];
            mb.TlsIntermediateCerts := [] |}
  | [name; root; tls] =>
      Ok {| mb.Name := if Byte.eqb name "000"%byte then "" else byte_string name;
            mb.RootCerts := pem_of root;
            mb.IntermediateCerts := [];
            mb.OrganizationalUnitIdentifiers := [];
            mb.TlsRootCerts := pem_of tls;
            mb.TlsIntermediateCerts := [] |}
  | _ => Err (errors.New "proto: cannot parse invalid wire-format data")
  end.

#[export] Instance Proto : proto.API := {|
  proto.Unmarshal_SerializedIdentity := Unmarshal_SerializedIdentity;
  proto.Unmarshal_FabricMSPConfig := Unmarshal_FabricMSPConfig
|}.

(** An MSP is its decoded configuration once it has been set up; an identity
    is the decoded serialized identity; a signature is valid when it repeats
    the message. *)
Definition MSP_Setup (m : option mb.FabricMSPConfig) (config : mb.MSPConfig)
  : option mb.FabricMSPConfig * option error :=
  match Unmarshal_FabricMSPConfig (mb.Config config) with
  | Err err => (m, Some err)
  | Ok fabricConfig => (Some fabricConfig, None)
  end.

Definition GetIdentifier (m : option mb.FabricMSPConfig) : result string :=
  match m with
  | Some fabricConfig => Ok (mb.Name fabricConfig)
  | None => Err (errors.New "MSP is not set up")
  end.

Definition Identity_Verify (id : mb.SerializedIdentity) (msg sig : bytes)
  : option error :=
  if List.list_eq_dec Byte.byte_eq_dec msg sig then None
  else Some (errors.New "The signature is invalid").

#[export] Instance Provider : msp.Provider unit := {|
  msp.MSP := option mb.FabricMSPConfig;
  msp.Identity := mb.SerializedIdentity;
  msp.MSPVersion := unit;
  msp.FABRIC := 0;
  msp.MSPv1_0 := tt;
  msp.NewBccspMsp := fun _ _ => Ok None;
  msp.MSP_Setup := MSP_Setup;
  msp.GetIdentifier := GetIdentifier;
  msp.GetTLSRootCerts := fun m =>
    match m with Some c => mb.TlsRootCerts c | None => [] end;
  msp.GetTLSIntermediateCerts := fun m =>
    match m with Some c => mb.TlsIntermediateCerts c | None => [] end;
  msp.MSP_DeserializeIdentity := fun _ serializedID =>
    Unmarshal_SerializedIdentity serializedID;
  msp.Identity_Validate := fun _ => None;
  msp.Identity_Verify := Identity_Verify
|}.

Definition Manager : msp.Manager Provider := Registry Provider.

Definition ctx : Context unit := {| CryptoSuite := tt |}.

(** The run of [createMSPManager] in this world. *)
Definition assemble (now : Time) (configs : list mb.MSPConfig)
  : M (result (gmap string (option mb.FabricMSPConfig))) :=
  createMSPManager (Mgr := Manager) now ctx {| MSPs := configs |}.

(** A config of the supported type with the payload [payload]. *)
Definition fabric (payload : bytes) : mb.MSPConfig :=
  {| mb.Type_ := 0; mb.Config := payload |}.

(** Sample inputs.  The clock stands at [1000], so certificate [20] (valid
    to [2000]) is current and certificate [5] (valid to [500]) has expired. *)
Definition today : Time := 1000.

Definition org1 : mb.MSPConfig := fabric ["A"; "020"; "020"]%byte.
Definition org2 : mb.MSPConfig := fabric ["B"; "020"; "020"]%byte.
(** A second config with the name of [org1]. *)
Definition org1_again : mb.MSPConfig := fabric ["A"; "021"; "020"]%byte.
(** [org1] with an expired TLS root certificate. *)
Definition org1_stale_tls : mb.MSPConfig := fabric ["A"; "020"; "005"]%byte.
(** A config of another provider type. *)
Definition other_type : mb.MSPConfig :=
  {| mb.Type_ := 1; mb.Config := ["A"; "020"; "020"]%byte |}.
(** Configs without payload, without name and root certificates, and with a
    name but without root certificates. *)
Definition no_payload : mb.MSPConfig := fabric [].
Definition unnamed_no_roots : mb.MSPConfig := fabric ["000"; "000"; "000"]%byte.
Definition no_roots : mb.MSPConfig := fabric ["A"; "000"; "020"]%byte.

(** Identities of MSP [A] with the expired and with the current certificate. *)
Definition expired_identity : bytes := ["A"; "C"; "005"]%byte.
Definition current_identity : bytes := ["A"; "C"; "020"]%byte.

(** The membership object of a channel with the MSP [org1]. *)
Definition org1_membership : identityImpl (Mgr := Manager) :=
  {| mspManager :=
       match value (assemble today [org1]) with
       | Ok m => m
       | Err _ => ∅
       end |}.

End Fixture.

(** ** The msp test fixture: identity-manager provider and CA server URL

    [identityManagerProvider.IdentityManager] and [updateCAServerURL] of the
    test fixture of package [msp].  [strings.ToLower] belongs to the Go
    standard library and is a parameter. *)

Module strings.

Class API : Type := {
  ToLower : string -> string
}.

End strings.

Section IdentityManagerProvider.

Context {Strings : strings.API}.

(** The values of the interface [msp.IdentityManager]. *)
Context {IM : Type}.

Record identityManagerProvider : Type := {
  identityManager : gmap string IM
}.

(** IdentityManager returns the organization's identity manager *)
Definition IdentityManager (p : identityManagerProvider) (orgName : string)
  : option IM * bool :=
  match identityManager p !! strings.ToLower orgName with
  | None => (None, false)
  | Some im => (Some im, true)
  end.

End IdentityManagerProvider.
Arguments identityManagerProvider IM : clear implicits.

(** [msp.CAConfig]: the URL, and the fields the fixture does not touch.
    The CA map holds these structs by value: the fixture reads an element,
    changes the copy and assigns it back. *)
Record CAConfig (R : Type) : Type := {
  URL : string;
  other_fields : R
}.
Arguments URL {R} c.
Arguments other_fields {R} c.

(** [mocks.MockConfigBackend], with [V] the values of [interface{}]. *)
Record MockConfigBackend (V : Type) : Type := {
  KeyValueMap : gmap string V
}.
Arguments KeyValueMap {V} m.

Section UpdateCAServerURL.

(** The untouched fields of a CA configuration, with their zero value, which
    Go gives to the element read at a key the map does not have. *)
Context {R : Type} (zero : R).

(** The values of the backend, and a map of CA configurations as such a
    value. *)
Context {V : Type} (certificateAuthorities_value : gmap string (CAConfig R) -> V).

(** [lookup.New(backend).UnmarshalKey(key, &m)]: the map it leaves in [m],
    [None] when it leaves the nil map.  Its error is dropped by the caller. *)
Context (UnmarshalKey :
  MockConfigBackend V -> string -> option (gmap string (CAConfig R))).

(** Reading [m[key]] from a Go map that may be nil. *)
Definition map_index (m : option (gmap string (CAConfig R))) (key : string)
  : CAConfig R :=
  match m with
  | Some entries =>
      match entries !! key with
      | Some c => c
      | None => {| URL := ""; other_fields := zero |}
      end
  | None => {| URL := ""; other_fields := zero |}
  end.

(** [updateCAServerURL], with the backend it leaves; [None] is the panic of
    the assignment to an entry of the nil map. *)
Definition updateCAServerURL (caServerURL : string)
  (backend : MockConfigBackend V) : option (MockConfigBackend V) :=
  (* get existing certificateAuthorities *)
  let CertificateAuthorities := UnmarshalKey backend "certificateAuthorities" in
  (* update URLs *)
  let ca1Config := map_index CertificateAuthorities "ca.org1.example.com" in
  let ca1Config := {| URL := caServerURL;
                      other_fields := other_fields ca1Config |} in
  let ca2Config := map_index CertificateAuthorities "ca.org2.example.com" in
  let ca2Config := {| URL := caServerURL;
                      other_fields := other_fields ca2Config |} in
  match CertificateAuthorities with
  | None => None
  | Some entries =>
      let entries := <["ca.org1.example.com" := ca1Config]> entries in
      let entries := <[".ca.org2.example.com" := ca2Config]> entries in
      (* update backend *)
      Some {| KeyValueMap :=
                <["certificateAuthorities" := certificateAuthorities_value entries]>
                  (KeyValueMap backend) |}
  end.

End UpdateCAServerURL.

(** A concrete world for the fixture: ASCII lower-casing, a manager that
    takes one MSP only, and a backend whose values are the CA maps. *)

Module MspFixture.

Definition lower (c : Ascii.ascii) : Ascii.ascii :=
  let n := Ascii.nat_of_ascii c in
  if (65 <=? n)%nat && (n <=? 90)%nat then Ascii.ascii_of_nat (n + 32) else c.

Fixpoint ToLower (s : string) : string :=
  match s with
  | EmptyString => EmptyString
  | String c rest => String (lower c) (ToLower rest)
  end.

#[export] Instance Strings : strings.API := {|
  strings.ToLower := ToLower
|}.

(** A manager whose setup accepts one MSP and refuses any other number. *)
Definition Single_Setup (m : list (option mb.FabricMSPConfig))
  (msps : list (option mb.FabricMSPConfig))
  : list (option mb.FabricMSPConfig) * option error :=
  match msps with
  | [_] => (msps, None)
  | _ => (m, Some (errors.New "exactly one MSP expected"))
  end.

Definition SingleManager : msp.Manager Fixture.Provider :=
  @msp.Build_Manager unit Fixture.Provider
    (list (option mb.FabricMSPConfig))
    []
    Single_Setup
    (fun _ serializedID => Fixture.Unmarshal_SerializedIdentity serializedID).

(** The backend decoded by reading the CA map back. *)
Definition UnmarshalKey (backend : MockConfigBackend (gmap string (CAConfig unit)))
  (key : string) : option (gmap string (CAConfig unit)) :=
  KeyValueMap backend !! key.

Definition two_CAs : MockConfigBackend (gmap string (CAConfig unit)) :=
  {| KeyValueMap :=
       {[ "certificateAuthorities" :=
            {[ "ca.org1.example.com" := {| URL := "https://ca1"; other_fields := tt |};
               "ca.org2.example.com" := {| URL := "https://ca2"; other_fields := tt |} ]} ]} |}.

End MspFixture.

(** ** Vocabulary of the properties *)

(** The event is a registration with the TLS trust pool. *)
Definition registers (e : event) : bool :=
  match e with
  | TLSCACertPool_call _ => true
  | _ => false
  end.

(** The event is a call into the MSP manager or into an identity. *)
Definition calls_msp (e : event) : bool :=
  match e with
  | DeserializeIdentity_call _ | Identity_Validate_call
  | Identity_Verify_call _ _ => true
  | _ => false
  end.

(** The event is a call of the certificate-date verifier. *)
Definition checks_dates (e : event) : bool :=
  match e with
  | ValidateCertificateDates_call _ => true
  | _ => false
  end.

(** The event is a logger call. *)
Definition logs (e : event) : bool :=
  match e with
  | Log _ _ => true
  | _ => false
  end.

(** A block that [addCertsToConfig] does not skip: of type CERTIFICATE and
    without headers. *)
Definition plain_certificate_block (block : pem.Block) : bool :=
  String.eqb (pem.Type_ block) "CERTIFICATE"
  && (Z.of_nat (size (pem.Headers block)) =? 0).

(** The certificate is outside its validity window at [now]. *)
Definition outside_window (now : Time) (cert : x509.Certificate) : Prop :=
  now < x509.NotBefore cert \/ x509.NotAfter cert < now.

(** What [addCertsToConfig] does with a certificate it parsed: the date
    check, a warning when the check failed, and the registration. *)
Definition registration (now : Time) (cert : x509.Certificate) : list event :=
  ValidateCertificateDates_call cert ::
  match verifier.ValidateCertificateDates now cert with
  | Some err => [Log Warn [AStr "%v"; AErr err]]
  | None => []
  end ++ [TLSCACertPool_call cert].

(** The event is the warning [addCertsToConfig] logs for a failed date
    check. *)
Definition date_warning (e : event) : bool :=
  match e with
  | Log Warn _ => true
  | _ => false
  end.

Section Vocabulary.

Context {Pem : pem.API} {X509 : x509.API}.

(** [carries pemCerts cert]: the PEM input holds, at some position, a
    CERTIFICATE block without headers that parses to [cert]. *)
Inductive carries : bytes -> x509.Certificate -> Prop :=
| carries_here pemCerts block rest cert :
    pem.Decode pemCerts = (Some block, rest) ->
    plain_certificate_block block = true ->
    x509.ParseCertificate (pem.Bytes block) = Ok cert ->
    carries pemCerts cert
| carries_later pemCerts block rest cert :
    pem.Decode pemCerts = (Some block, rest) ->
    carries rest cert ->
    carries pemCerts cert.

(** [carried_in_order pemCerts certs]: reading the PEM input block by block
    from the front, up to the first place where no block is found, [certs]
    is the list of the certificates of the CERTIFICATE blocks without headers
    that parse, one per such block, in the order of the blocks. *)
Inductive carried_in_order : bytes -> list x509.Certificate -> Prop :=
| carried_end pemCerts rest :
    pem.Decode pemCerts = (None, rest) ->
    carried_in_order pemCerts []
| carried_cert pemCerts block rest cert certs :
    pem.Decode pemCerts = (Some block, rest) ->
    plain_certificate_block block = true ->
    x509.ParseCertificate (pem.Bytes block) = Ok cert ->
    carried_in_order rest certs ->
    carried_in_order pemCerts (cert :: certs)
| carried_skip pemCerts block rest certs :
    pem.Decode pemCerts = (Some block, rest) ->
    plain_certificate_block block = false
    \/ (exists err, x509.ParseCertificate (pem.Bytes block) = Err err) ->
    carried_in_order rest certs ->
    carried_in_order pemCerts certs.

End Vocabulary.

(** * Properties *)

(** ** The trace monad *)

Lemma value_bind {A B : Type} (m : M A) (k : A -> M B) :
  value (bind m k) = value (k (value m)).
Proof.
  unfold value, bind. destruct m as [a t1]. simpl.
  destruct (k a) as [b t2]. reflexivity.
Qed.

Lemma trace_bind {A B : Type} (m : M A) (k : A -> M B) :
  trace (bind m k) = trace m ++ trace (k (value m)).
Proof.
  unfold trace, value, bind. destruct m as [a t1]. simpl.
  destruct (k a) as [b t2]. reflexivity.
Qed.

Lemma trace_for_range_Forall {A : Type} (Q : event -> Prop) (l : list A)
  (body : A -> M unit) :
  (forall x, In x l -> Forall Q (trace (body x))) ->
  Forall Q (trace (for_range l body)).
Proof.
  induction l as [|x rest IH]; intros Hbody; simpl.
  - constructor.
  - rewrite trace_bind. apply Forall_app. split.
    + apply Hbody. now left.
    + apply IH. intros y Hy. apply Hbody. now right.
Qed.

Lemma trace_for_range_In {A : Type} (l : list A) (body : A -> M unit)
  (x : A) (e : event) :
  In x l -> In e (trace (body x)) -> In e (trace (for_range l body)).
Proof.
  induction l as [|y rest IH]; intros Hx He; simpl in *.
  - contradiction.
  - rewrite trace_bind. apply in_or_app.
    destruct Hx as [-> | Hx]; [now left | right; now apply IH].
Qed.

Section Properties.

Context {CS : Type}.
Context {Pem : pem.API} {X509 : x509.API} {Proto : proto.API}.
Context {P : msp.Provider CS} {Mgr : msp.Manager P}.

Variable now : Time.

(** ** [addCertsToConfig]: the loop ends, and what one iteration does *)

Lemma len_pos_cons {A : Type} (l : list A) : (0 <? len l) = true <-> l <> [].
Proof.
  unfold len. destruct l as [|x l]; split; intros H.
  - discriminate.
  - congruence.
  - discriminate.
  - apply Z.ltb_lt. simpl length. lia.
Qed.

(** Any two bounds of at least the length of the input give the same run. *)
Lemma addCertsToConfig_loop_fuel (f1 : nat) :
  forall (f2 : nat) (pemCerts : bytes),
    (length pemCerts <= f1)%nat -> (length pemCerts <= f2)%nat ->
    addCertsToConfig_loop now f1 pemCerts = addCertsToConfig_loop now f2 pemCerts.
Proof.
  induction f1 as [|f1 IH]; intros f2 pemCerts H1 H2.
  - destruct pemCerts; [|simpl in H1; lia].
    destruct f2; reflexivity.
  - destruct f2 as [|f2].
    + destruct pemCerts; [reflexivity | simpl in H2; lia].
    + simpl. destruct (0 <? len pemCerts); [|reflexivity].
      destruct (pem.Decode pemCerts) as [[block|] rest] eqn:E; [|reflexivity].
      apply pem.Decode_rest in E.
      assert (Hrec : addCertsToConfig_loop now f1 rest
                     = addCertsToConfig_loop now f2 rest)
        by (apply IH; lia).
      rewrite Hrec. reflexivity.
Qed.

(** The loop always ends within the bound [addCertsToConfig] gives it. *)
Lemma addCertsToConfig_loop_ends (fuel : nat) :
  forall pemCerts : bytes,
    (length pemCerts <= fuel)%nat ->
    value (addCertsToConfig_loop now fuel pemCerts) = true.
Proof.
  induction fuel as [|fuel IH]; intros pemCerts Hlen.
  - destruct pemCerts; [reflexivity | simpl in Hlen; lia].
  - cbn [addCertsToConfig_loop]. destruct (0 <? len pemCerts); [|reflexivity].
    destruct (pem.Decode pemCerts) as [[block|] rest] eqn:E; [|reflexivity].
    apply pem.Decode_rest in E.
    assert (Hrec : value (addCertsToConfig_loop now fuel rest) = true)
      by (apply IH; lia).
    destruct (negb (pem.Type_ block =? "CERTIFICATE")%string
              || negb (Z.of_nat (size (pem.Headers block)) =? 0)); [exact Hrec|].
    destruct (x509.ParseCertificate (pem.Bytes block)); [|exact Hrec].
    rewrite !value_bind. exact Hrec.
Qed.

(** [addCertsToConfig] never stops for lack of iterations. *)
Lemma addCertsToConfig_loop_complete (pemCerts : bytes) :
  value (addCertsToConfig_loop now (length pemCerts) pemCerts) = true.
Proof. apply addCertsToConfig_loop_ends. lia. Qed.

Lemma trace_addCertsToConfig (pemCerts : bytes) :
  trace (addCertsToConfig now pemCerts)
  = trace (addCertsToConfig_loop now (length pemCerts) pemCerts).
Proof.
  unfold addCertsToConfig. rewrite trace_bind. simpl. apply app_nil_r.
Qed.

Lemma trace_addCertsToConfig_nil : trace (addCertsToConfig now []) = [].
Proof. reflexivity. Qed.

(** No block: the loop is left. *)
Lemma trace_addCertsToConfig_break (pemCerts rest : bytes) :
  pem.Decode pemCerts = (None, rest) ->
  trace (addCertsToConfig now pemCerts) = [].
Proof.
  intros E. rewrite trace_addCertsToConfig.
  destruct pemCerts as [|b tl]; [reflexivity|].
  cbn [length addCertsToConfig_loop].
  destruct (0 <? len (b :: tl)); [|reflexivity].
  rewrite E. reflexivity.
Qed.

(** A block that is skipped: the run is the run on the rest. *)
Lemma trace_addCertsToConfig_skip (pemCerts rest : bytes) (block : pem.Block) :
  pem.Decode pemCerts = (Some block, rest) ->
  plain_certificate_block block = false
  \/ (exists err, x509.ParseCertificate (pem.Bytes block) = Err err) ->
  trace (addCertsToConfig now pemCerts) = trace (addCertsToConfig now rest).
Proof.
  intros E Hskip. rewrite !trace_addCertsToConfig.
  pose proof (pem.Decode_rest _ _ _ E) as Hlt.
  destruct pemCerts as [|b tl]; [simpl in Hlt; lia|].
  cbn [length addCertsToConfig_loop].
  assert (Hpos : (0 <? len (b :: tl)) = true)
    by (apply len_pos_cons; discriminate).
  rewrite Hpos, E.
  rewrite (addCertsToConfig_loop_fuel (length tl) (length rest) rest)
    by (simpl in Hlt; lia).
  unfold plain_certificate_block in Hskip.
  destruct (pem.Type_ block =? "CERTIFICATE")%string;
    destruct (Z.of_nat (size (pem.Headers block)) =? 0); simpl;
    try reflexivity.
  destruct Hskip as [Hf | [err Herr]]; [discriminate|].
  rewrite Herr. reflexivity.
Qed.

(** A certificate block that parses: date check, warning on failure,
    registration, then the run on the rest. *)
Lemma trace_addCertsToConfig_cert (pemCerts rest : bytes) (block : pem.Block)
  (cert : x509.Certificate) :
  pem.Decode pemCerts = (Some block, rest) ->
  plain_certificate_block block = true ->
  x509.ParseCertificate (pem.Bytes block) = Ok cert ->
  trace (addCertsToConfig now pemCerts)
  = registration now cert ++ trace (addCertsToConfig now rest).
Proof.
  intros E Hplain Hparse. rewrite !trace_addCertsToConfig.
  pose proof (pem.Decode_rest _ _ _ E) as Hlt.
  destruct pemCerts as [|b tl]; [simpl in Hlt; lia|].
  cbn [length addCertsToConfig_loop].
  assert (Hpos : (0 <? len (b :: tl)) = true)
    by (apply len_pos_cons; discriminate).
  rewrite Hpos, E.
  rewrite (addCertsToConfig_loop_fuel (length tl) (length rest) rest)
    by (simpl in Hlt; lia).
  unfold plain_certificate_block in Hplain.
  apply andb_true_iff in Hplain as [Ht Hh]. rewrite Ht, Hh.
  cbn [negb orb]. rewrite Hparse. unfold registration.
  rewrite !trace_bind. cbn [verifier_ValidateCertificateDates value trace
    bind emit ret fst snd app config_TLSCACertPool].
  destruct (verifier.ValidateCertificateDates now cert); reflexivity.
Qed.

(** Every certificate the input carries is registered, and a failed date
    check of it is logged. *)
Lemma carries_registered (pemCerts : bytes) (cert : x509.Certificate) :
  carries pemCerts cert ->
  forall e, In e (registration now cert) ->
  In e (trace (addCertsToConfig now pemCerts)).
Proof.
  induction 1 as [pemCerts block rest cert E Hplain Hparse
                 |pemCerts block rest cert E Hc IH]; intros e He.
  - rewrite (trace_addCertsToConfig_cert _ _ _ _ E Hplain Hparse).
    apply in_or_app. now left.
  - destruct (plain_certificate_block block) eqn:Hplain.
    + destruct (x509.ParseCertificate (pem.Bytes block)) as [c|err] eqn:Hparse.
      * rewrite (trace_addCertsToConfig_cert _ _ _ _ E Hplain Hparse).
        apply in_or_app. right. now apply IH.
      * rewrite (trace_addCertsToConfig_skip _ _ _ E); [now apply IH|].
        right. now exists err.
    + rewrite (trace_addCertsToConfig_skip _ _ _ E); [now apply IH|].
      now left.
Qed.

(** ** [loadMSPs]: values and traces *)

(** Building one config only logs. *)
Lemma trace_loadMSPs_body_logs (config : mb.MSPConfig) (cs : CS) :
  Forall (fun e => logs e = true) (trace (loadMSPs_body config cs)).
Proof.
  unfold loadMSPs_body.
  destruct (negb (mb.Type_ config =? msp.FABRIC)); [constructor|].
  destruct (len (mb.Config config) =? 0); [constructor|].
  destruct (getFabricConfig config) as [fabricConfig|err]; [|constructor].
  rewrite trace_bind. apply Forall_app. split.
  - apply trace_for_range_Forall. intros ou _.
    repeat constructor.
  - destruct (msp.NewBccspMsp msp.MSPv1_0 cs) as [newMSP|err]; [|constructor].
    destruct (msp.MSP_Setup newMSP config) as [newMSP' [err|]]; [constructor|].
    destruct (msp.GetIdentifier newMSP') as [mspID|err]; [|constructor].
    repeat constructor.
Qed.

Lemma trace_loadMSPs_loop_logs (mspConfigs : list mb.MSPConfig) (cs : CS) :
  forall msps,
    Forall (fun e => logs e = true) (trace (loadMSPs_loop mspConfigs cs msps)).
Proof.
  induction mspConfigs as [|config rest IH]; intros msps; simpl.
  - constructor.
  - rewrite trace_bind. apply Forall_app. split.
    + apply trace_loadMSPs_body_logs.
    + destruct (value (loadMSPs_body config cs)); [apply IH | constructor].
Qed.

Lemma trace_loadMSPs_logs (mspConfigs : list mb.MSPConfig) (cs : CS) :
  Forall (fun e => logs e = true) (trace (loadMSPs mspConfigs cs)).
Proof.
  unfold loadMSPs. rewrite !trace_bind.
  repeat (apply Forall_app; split).
  - repeat constructor.
  - apply trace_loadMSPs_loop_logs.
  - destruct (value (loadMSPs_loop mspConfigs cs [])); repeat constructor.
Qed.

Lemma value_loadMSPs (mspConfigs : list mb.MSPConfig) (cs : CS) :
  value (loadMSPs mspConfigs cs) = value (loadMSPs_loop mspConfigs cs []).
Proof.
  unfold loadMSPs. rewrite !value_bind.
  destruct (value (loadMSPs_loop mspConfigs cs [])); reflexivity.
Qed.

(** The loop stops at the first config that fails to build, with its
    error, whatever was built before. *)
Lemma loadMSPs_loop_first_failure (pre post : list mb.MSPConfig)
  (config : mb.MSPConfig) (cs : CS) (e : error) :
  Forall (fun c => is_Ok (value (loadMSPs_body c cs))) pre ->
  value (loadMSPs_body config cs) = Err e ->
  forall msps,
    value (loadMSPs_loop (pre ++ config :: post) cs msps) = Err e.
Proof.
  intros Hpre Hfail. induction Hpre as [|c pre Hc _ IH]; intros msps; simpl.
  - rewrite value_bind, Hfail. reflexivity.
  - rewrite value_bind.
    destruct (value (loadMSPs_body c cs)); [apply IH | contradiction].
Qed.

(** When every config builds, the loop returns the MSPs built, in order,
    after those it started with. *)
Lemma loadMSPs_loop_all_built (mspConfigs : list mb.MSPConfig) (cs : CS) :
  Forall (fun c => is_Ok (value (loadMSPs_body c cs))) mspConfigs ->
  forall msps, exists built,
    value (loadMSPs_loop mspConfigs cs msps) = Ok (msps ++ built)
    /\ Forall2 (fun c m => value (loadMSPs_body c cs) = Ok m) mspConfigs built.
Proof.
  induction 1 as [|c rest Hc _ IH]; intros msps; simpl.
  - exists []. rewrite app_nil_r. split; [reflexivity | constructor].
  - rewrite value_bind.
    destruct (value (loadMSPs_body c cs)) as [m|] eqn:E; [|contradiction].
    destruct (IH (msps ++ [m])) as [built [Hv Hb]].
    exists (m :: built). split.
    + rewrite Hv, <- app_assoc. reflexivity.
    + constructor; assumption.
Qed.

(** A successful loop built every config. *)
Lemma loadMSPs_loop_Ok (mspConfigs : list mb.MSPConfig) (cs : CS) :
  forall msps result,
    value (loadMSPs_loop mspConfigs cs msps) = Ok result ->
    exists built,
      result = msps ++ built
      /\ Forall2 (fun c m => value (loadMSPs_body c cs) = Ok m) mspConfigs built.
Proof.
  induction mspConfigs as [|c rest IH]; intros msps result; simpl.
  - intros [= <-]. exists []. rewrite app_nil_r. split; [reflexivity|constructor].
  - rewrite value_bind.
    destruct (value (loadMSPs_body c cs)) as [m|] eqn:E; [|discriminate].
    intros Hv. destruct (IH _ _ Hv) as [built [-> Hb]].
    exists (m :: built). split.
    + rewrite <- app_assoc. reflexivity.
    + constructor; assumption.
Qed.

(** A list with a config that fails to build splits at the first such
    config. *)
Lemma first_failure_split (mspConfigs : list mb.MSPConfig) (cs : CS) :
  Exists (fun c => is_Err (value (loadMSPs_body c cs))) mspConfigs ->
  exists pre config post e,
    mspConfigs = pre ++ config :: post
    /\ Forall (fun c => is_Ok (value (loadMSPs_body c cs))) pre
    /\ value (loadMSPs_body config cs) = Err e.
Proof.
  induction mspConfigs as [|c rest IH]; intros Hex.
  - inversion Hex.
  - destruct (value (loadMSPs_body c cs)) as [m|e] eqn:E.
    + assert (Hrest : Exists (fun c => is_Err (value (loadMSPs_body c cs))) rest).
      { inversion Hex as [? ? Hc|? ? Hr]; subst; [|exact Hr].
        rewrite E in Hc. contradiction. }
      destruct (IH Hrest) as (pre & config & post & e & -> & Hpre & Hfail).
      exists (c :: pre), config, post, e. repeat split; try assumption.
      constructor; [rewrite E; exact I | assumption].
    + exists [], c, rest, e. repeat split; [constructor | assumption].
Qed.

(** The errors building one config can end in: the checks of the loop and of
    [getFabricConfig], and the failures of the MSP it instantiates. *)
Lemma loadMSPs_body_errors (config : mb.MSPConfig) (cs : CS) (e : error) :
  value (loadMSPs_body config cs) = Err e ->
  e = UnsupportedProviderType (mb.Type_ config)
  \/ e = MissingPayload
  \/ (exists err, e = MalformedConfig err)
  \/ e = MissingName
  \/ e = MissingRootCerts
  \/ (exists err, e = errors.Wrap err "instantiate MSP failed")
  \/ (exists err, e = errors.Wrap err "configure MSP failed")
  \/ (exists err, e = errors.Wrap err "failed to get identifier").
Proof.
  unfold loadMSPs_body, getFabricConfig.
  destruct (negb (mb.Type_ config =? msp.FABRIC)).
  { intros [= <-]. now left. }
  destruct (len (mb.Config config) =? 0).
  { intros [= <-]. right. now left. }
  destruct (proto.Unmarshal_FabricMSPConfig (mb.Config config)) as [fc|err].
  2:{ intros [= <-]. right. right. left. now exists err. }
  destruct (mb.Name fc =? "")%string.
  { intros [= <-]. do 3 right. now left. }
  destruct (len (mb.RootCerts fc) =? 0).
  { intros [= <-]. do 4 right. now left. }
  rewrite value_bind.
  destruct (msp.NewBccspMsp msp.MSPv1_0 cs) as [newMSP|err].
  2:{ intros [= <-]. do 5 right. left. now exists err. }
  destruct (msp.MSP_Setup newMSP config) as [newMSP' [err|]].
  { intros [= <-]. do 6 right. left. now exists err. }
  destruct (msp.GetIdentifier newMSP') as [mspID|err].
  { rewrite value_bind. discriminate. }
  intros [= <-]. do 7 right. now exists err.
Qed.

(** ** [createMSPManager]: value and trace *)

Lemma value_createMSPManager (ctx : Context CS) (cfg : ChannelCfg) :
  MSPs cfg <> [] ->
  value (createMSPManager now ctx cfg)
  = match value (loadMSPs (MSPs cfg) (CryptoSuite ctx)) with
    | Err err => Err (errors.WithMessage err "load MSPs from config failed")
    | Ok msps =>
        match msp.MSPManager_Setup msp.NewMSPManager msps with
        | (_, Some err) => Err (errors.WithMessage err "MSPManager Setup failed")
        | (mspManager, None) => Ok mspManager
        end
    end.
Proof.
  intros Hne. unfold createMSPManager.
  apply len_pos_cons in Hne. rewrite Hne, value_bind.
  destruct (value (loadMSPs (MSPs cfg) (CryptoSuite ctx))) as [msps|err];
    [|reflexivity].
  destruct (msp.MSPManager_Setup msp.NewMSPManager msps) as [m [err|]];
    [reflexivity|].
  rewrite value_bind. reflexivity.
Qed.

Lemma trace_createMSPManager (ctx : Context CS) (cfg : ChannelCfg) :
  MSPs cfg <> [] ->
  trace (createMSPManager now ctx cfg)
  = trace (loadMSPs (MSPs cfg) (CryptoSuite ctx)) ++
    match value (loadMSPs (MSPs cfg) (CryptoSuite ctx)) with
    | Err err => []
    | Ok msps =>
        match msp.MSPManager_Setup msp.NewMSPManager msps with
        | (_, Some err) => []
        | (_, None) =>
            trace (for_range msps (fun m =>
                     exec for_range (msp.GetTLSRootCerts m)
                            (addCertsToConfig now) in
                     for_range (msp.GetTLSIntermediateCerts m)
                       (addCertsToConfig now)))
        end
    end.
Proof.
  intros Hne. unfold createMSPManager.
  apply len_pos_cons in Hne. rewrite Hne, trace_bind. f_equal.
  destruct (value (loadMSPs (MSPs cfg) (CryptoSuite ctx))) as [msps|err];
    [|reflexivity].
  destruct (msp.MSPManager_Setup msp.NewMSPManager msps) as [m [err|]];
    [reflexivity|].
  rewrite trace_bind. simpl. apply app_nil_r.
Qed.

Lemma createMSPManager_nil (ctx : Context CS) (cfg : ChannelCfg) :
  MSPs cfg = [] ->
  createMSPManager now ctx cfg = (Ok msp.NewMSPManager, []).
Proof. intros E. unfold createMSPManager. rewrite E. reflexivity. Qed.

(** A failing config makes the assembly fail; when it is the first one that
    fails, with its error. *)
Lemma createMSPManager_failure (ctx : Context CS) (cfg : ChannelCfg)
  (pre post : list mb.MSPConfig) (config : mb.MSPConfig) (e : error) :
  MSPs cfg = pre ++ config :: post ->
  value (loadMSPs_body config (CryptoSuite ctx)) = Err e ->
  is_Err (value (createMSPManager now ctx cfg))
  /\ (Forall (fun c => is_Ok (value (loadMSPs_body c (CryptoSuite ctx)))) pre ->
      value (createMSPManager now ctx cfg)
      = Err (errors.WithMessage e "load MSPs from config failed")).
Proof.
  intros Hcfg Hfail.
  assert (Hne : MSPs cfg <> []) by (rewrite Hcfg; destruct pre; discriminate).
  rewrite (value_createMSPManager ctx cfg Hne), value_loadMSPs. split.
  - destruct (first_failure_split (MSPs cfg) (CryptoSuite ctx))
      as (pre' & c' & post' & e' & Hsplit & Hpre' & Hfail').
    { rewrite Hcfg. apply Exists_app. right. left. rewrite Hfail. exact I. }
    rewrite Hsplit.
    rewrite (loadMSPs_loop_first_failure pre' post' c' _ e' Hpre' Hfail').
    exact I.
  - intros Hpre. rewrite Hcfg.
    rewrite (loadMSPs_loop_first_failure pre post config _ e Hpre Hfail).
    reflexivity.
Qed.

Lemma value_New (ctx : Context CS) (cfg : ChannelCfg) :
  value (New now ctx cfg)
  = match value (createMSPManager now ctx cfg) with
    | Err err => Err err
    | Ok m => Ok {| mspManager := m |}
    end.
Proof.
  unfold New. rewrite value_bind.
  destruct (value (createMSPManager now ctx cfg)); reflexivity.
Qed.

Lemma outside_window_fails (cert : x509.Certificate) :
  outside_window now cert ->
  verifier.ValidateCertificateDates now cert = Some errors.TemporalValidity.
Proof.
  unfold outside_window, verifier.ValidateCertificateDates. intros Hout.
  assert (Hb : (now <? x509.NotBefore cert) || (x509.NotAfter cert <? now) = true).
  { apply orb_true_iff. destruct Hout; [left | right]; now apply Z.ltb_lt. }
  rewrite Hb. reflexivity.
Qed.

(** ** The claims *)

(** C1.  Assembly is atomic.  When some config of the list fails to build,
    the list splits at the first such config: the configs before it build,
    it fails with an error [e], and [createMSPManager] returns that error
    (under the message of the assembly) and no manager; [New] hands the same
    error to the caller, with no membership object.  The errors a
    config can fail with are listed in [loadMSPs_body_errors]. *)
Theorem C1_assembly_is_atomic (ctx : Context CS) (cfg : ChannelCfg) :
  Exists (fun c => is_Err (value (loadMSPs_body c (CryptoSuite ctx)))) (MSPs cfg) ->
  exists pre config post e,
    MSPs cfg = pre ++ config :: post
    /\ Forall (fun c => is_Ok (value (loadMSPs_body c (CryptoSuite ctx)))) pre
    /\ value (loadMSPs_body config (CryptoSuite ctx)) = Err e
    /\ value (createMSPManager now ctx cfg)
       = Err (errors.WithMessage e "load MSPs from config failed")
    /\ value (New now ctx cfg)
       = Err (errors.WithMessage e "load MSPs from config failed").
Proof.
  intros Hex.
  destruct (first_failure_split _ _ Hex)
    as (pre & config & post & e & Hsplit & Hpre & Hfail).
  exists pre, config, post, e.
  destruct (createMSPManager_failure ctx cfg pre post config e Hsplit Hfail)
    as [_ Hval].
  specialize (Hval Hpre).
  repeat split; try assumption.
  rewrite value_New, Hval. reflexivity.
Qed.

(** C2.  In [Validate] the date check comes first.  For a serialized
    identity whose certificate decodes and is outside its validity window at
    the current time, [Validate] returns the temporal-validity error, and its
    trace is the date check and the two log lines: the MSP manager is not
    asked to deserialize the identity and no identity is asked to validate
    itself.  This holds for every manager, whatever it would answer. *)
Theorem C2_validate_dates_first (i : identityImpl) (serializedID : bytes)
  (sID : mb.SerializedIdentity) (bl : pem.Block) (rest : bytes)
  (cert : x509.Certificate) :
  proto.Unmarshal_SerializedIdentity serializedID = Ok sID ->
  pem.Decode (mb.IdBytes sID) = (Some bl, rest) ->
  x509.ParseCertificate (pem.Bytes bl) = Ok cert ->
  outside_window now cert ->
  value (Validate now i serializedID) = Some errors.TemporalValidity
  /\ trace (Validate now i serializedID)
     = [ValidateCertificateDates_call cert;
        Log Warnf [AStr "Certificate error '%v' for cert '%v'";
                   AErr errors.TemporalValidity; AInt (x509.SerialNumber cert)];
        Log Errorf [AStr "Cert error %v"; AErr errors.TemporalValidity]]
  /\ Forall (fun e => calls_msp e = false) (trace (Validate now i serializedID)).
Proof.
  intros Hsid Hpem Hparse Hout.
  assert (Hrun : Validate now i serializedID
          = (Some errors.TemporalValidity,
             [ValidateCertificateDates_call cert;
              Log Warnf [AStr "Certificate error '%v' for cert '%v'";
                         AErr errors.TemporalValidity;
                         AInt (x509.SerialNumber cert)];
              Log Errorf [AStr "Cert error %v"; AErr errors.TemporalValidity]])).
  { unfold Validate, areCertDatesValid.
    rewrite Hsid, Hpem. cbn [fst]. rewrite Hparse.
    unfold verifier_ValidateCertificateDates.
    rewrite (outside_window_fails cert Hout). reflexivity. }
  rewrite Hrun. repeat split. repeat constructor.
Qed.

(** C4.  [Verify] deserializes the identity through the MSP manager and asks
    it to verify the signature, and does nothing else: its result is the
    error of the deserialization or else the answer of the identity, and its
    trace holds these calls only, so no date check and no log line.  It
    takes no clock and no earlier [Validate]. *)
Theorem C4_verify_no_date_check (i : identityImpl) (serializedID msg sig : bytes) :
  Verify i serializedID msg sig
  = match msp.DeserializeIdentity (mspManager i) serializedID with
    | Err err => (Some err, [DeserializeIdentity_call serializedID])
    | Ok id => (msp.Identity_Verify id msg sig,
                [DeserializeIdentity_call serializedID;
                 Identity_Verify_call msg sig])
    end
  /\ Forall (fun e => checks_dates e = false /\ logs e = false)
       (trace (Verify i serializedID msg sig)).
Proof.
  assert (Hrun : Verify i serializedID msg sig
          = match msp.DeserializeIdentity (mspManager i) serializedID with
            | Err err => (Some err, [DeserializeIdentity_call serializedID])
            | Ok id => (msp.Identity_Verify id msg sig,
                        [DeserializeIdentity_call serializedID;
                         Identity_Verify_call msg sig])
            end).
  { unfold Verify, mspManager_DeserializeIdentity.
    destruct (msp.DeserializeIdentity (mspManager i) serializedID);
      reflexivity. }
  split; [exact Hrun|]. rewrite Hrun.
  destruct (msp.DeserializeIdentity (mspManager i) serializedID);
    repeat constructor.
Qed.

(** C5.  A TLS certificate outside its validity window does not make the
    assembly fail.  When the MSPs of the channel build and the manager is set
    up with them, [createMSPManager] returns that manager, also when the TLS
    root or intermediate certificates of one of the MSPs carry a certificate
    outside its validity window; the failed date check of that certificate
    is in the trace as a warning of the logger. *)
Theorem C5_tls_date_failure_not_fatal (ctx : Context CS) (cfg : ChannelCfg)
  (msps : list msp.MSP) (mgr : msp.MSPManager) (m : msp.MSP)
  (pemCerts : bytes) (cert : x509.Certificate) :
  value (loadMSPs (MSPs cfg) (CryptoSuite ctx)) = Ok msps ->
  msp.MSPManager_Setup msp.NewMSPManager msps = (mgr, None) ->
  In m msps ->
  In pemCerts (msp.GetTLSRootCerts m ++ msp.GetTLSIntermediateCerts m) ->
  carries pemCerts cert ->
  outside_window now cert ->
  value (createMSPManager now ctx cfg) = Ok mgr
  /\ In (Log Warn [AStr "%v"; AErr errors.TemporalValidity])
       (trace (createMSPManager now ctx cfg)).
Proof.
  intros Hload Hsetup Hm Hpem Hcarries Hout.
  assert (Hne : MSPs cfg <> []).
  { intros Hnil. rewrite value_loadMSPs, Hnil in Hload.
    simpl in Hload. injection Hload as <-. contradiction. }
  split.
  - rewrite (value_createMSPManager ctx cfg Hne), Hload, Hsetup. reflexivity.
  - rewrite (trace_createMSPManager ctx cfg Hne), Hload, Hsetup.
    apply in_or_app. right.
    apply (trace_for_range_In msps _ m); [exact Hm|].
    assert (Hin : In (Log Warn [AStr "%v"; AErr errors.TemporalValidity])
                    (trace (addCertsToConfig now pemCerts))).
    { apply (carries_registered pemCerts cert Hcarries).
      unfold registration. rewrite (outside_window_fails cert Hout).
      simpl. right. now left. }
    rewrite trace_bind. apply in_or_app.
    apply in_app_or in Hpem as [Hroot | Hinter].
    + left. now apply (trace_for_range_In _ _ pemCerts).
    + right. now apply (trace_for_range_In _ _ pemCerts).
Qed.

(** C6, as amended.  A config whose provider type is not the supported one
    makes the assembly over any list that contains it fail.  The error is
    the one of the unsupported provider type when the configs before it in
    the list build, so in particular for the list of that config alone.  In
    every case the error is that of the first config of the list that fails:
    when an earlier config fails, its error is the one returned. *)
Theorem C6_unsupported_provider_type (ctx : Context CS) (cfg : ChannelCfg)
  (pre post : list mb.MSPConfig) (config : mb.MSPConfig) :
  MSPs cfg = pre ++ config :: post ->
  mb.Type_ config <> msp.FABRIC ->
  is_Err (value (createMSPManager now ctx cfg))
  /\ (Forall (fun c => is_Ok (value (loadMSPs_body c (CryptoSuite ctx)))) pre ->
      value (createMSPManager now ctx cfg)
      = Err (errors.WithMessage (UnsupportedProviderType (mb.Type_ config))
               "load MSPs from config failed"))
  /\ (exists first_pre first first_post e,
        MSPs cfg = first_pre ++ first :: first_post
        /\ Forall (fun c => is_Ok (value (loadMSPs_body c (CryptoSuite ctx))))
             first_pre
        /\ value (loadMSPs_body first (CryptoSuite ctx)) = Err e
        /\ value (createMSPManager now ctx cfg)
           = Err (errors.WithMessage e "load MSPs from config failed")).
Proof.
  intros Hcfg Htype.
  assert (Hfail : value (loadMSPs_body config (CryptoSuite ctx))
                  = Err (UnsupportedProviderType (mb.Type_ config))).
  { unfold loadMSPs_body.
    apply Z.eqb_neq in Htype. rewrite Htype. reflexivity. }
  destruct (createMSPManager_failure ctx cfg pre post config _ Hcfg Hfail)
    as [Herr Hfirst].
  split; [exact Herr|]. split; [exact Hfirst|].
  destruct (first_failure_split (MSPs cfg) (CryptoSuite ctx))
    as (first_pre & first & first_post & e & Hsplit & Hpre & Hfail').
  { rewrite Hcfg. apply Exists_app. right. left. rewrite Hfail. exact I. }
  exists first_pre, first, first_post, e.
  repeat split; try assumption.
  exact (proj2 (createMSPManager_failure ctx cfg first_pre first_post first e
                  Hsplit Hfail') Hpre).
Qed.

(** C7, as amended.  A config of the supported type whose payload is not
    empty and decodes to a configuration with a name and without root
    certificates makes the assembly over any list that contains it fail.
    The error is the one of the missing root certificates when the configs
    before it in the list build, so in particular for the list of that config
    alone. *)
Theorem C7_missing_root_certs (ctx : Context CS) (cfg : ChannelCfg)
  (pre post : list mb.MSPConfig) (config : mb.MSPConfig)
  (fabricConfig : mb.FabricMSPConfig) :
  MSPs cfg = pre ++ config :: post ->
  mb.Type_ config = msp.FABRIC ->
  mb.Config config <> [] ->
  proto.Unmarshal_FabricMSPConfig (mb.Config config) = Ok fabricConfig ->
  mb.Name fabricConfig <> "" ->
  mb.RootCerts fabricConfig = [] ->
  is_Err (value (createMSPManager now ctx cfg))
  /\ (Forall (fun c => is_Ok (value (loadMSPs_body c (CryptoSuite ctx)))) pre ->
      value (createMSPManager now ctx cfg)
      = Err (errors.WithMessage MissingRootCerts "load MSPs from config failed")).
Proof.
  intros Hcfg Htype Hpayload Hdecode Hname Hroots.
  apply (createMSPManager_failure ctx cfg pre post config _ Hcfg).
  unfold loadMSPs_body, getFabricConfig.
  rewrite Htype, Z.eqb_refl. cbn [negb].
  assert (Hlen : (len (mb.Config config) =? 0) = false).
  { apply Z.eqb_neq. unfold len. destruct (mb.Config config);
      [congruence | simpl length; lia]. }
  rewrite Hlen, Hdecode.
  apply String.eqb_neq in Hname. rewrite Hname, Hroots. reflexivity.
Qed.

(** C9.  The TLS trust pool is fed only once the whole assembly has
    succeeded.  When [createMSPManager] returns an error, because an MSP
    failed to build or because the setup of the manager failed, its trace
    holds no registration with the TLS trust pool. *)
Theorem C9_no_registration_on_failure (ctx : Context CS) (cfg : ChannelCfg) :
  is_Err (value (createMSPManager now ctx cfg)) ->
  Forall (fun e => registers e = false) (trace (createMSPManager now ctx cfg)).
Proof.
  intros Herr.
  destruct (MSPs cfg) as [|c rest] eqn:Hcfg.
  - rewrite (createMSPManager_nil ctx cfg Hcfg) in Herr. contradiction.
  - assert (Hne : MSPs cfg <> []) by (rewrite Hcfg; discriminate).
    rewrite (value_createMSPManager ctx cfg Hne) in Herr.
    rewrite (trace_createMSPManager ctx cfg Hne).
    assert (Hlogs : Forall (fun e => registers e = false)
                      (trace (loadMSPs (MSPs cfg) (CryptoSuite ctx)))).
    { eapply Forall_impl; [apply trace_loadMSPs_logs|].
      intros e He. destruct e; simpl in *; congruence. }
    apply Forall_app. split; [exact Hlogs|].
    destruct (value (loadMSPs (MSPs cfg) (CryptoSuite ctx))) as [msps|err];
      [|constructor].
    destruct (msp.MSPManager_Setup msp.NewMSPManager msps) as [mgr [err|]];
      [constructor | contradiction].
Qed.

(** C10.  What [addCertsToConfig] does with the first block of its input.
    A CERTIFICATE block without headers that parses is registered with the
    TLS trust pool whatever its date check says: the check is made, a failure
    of it is logged as a warning, and the registration follows; for a
    certificate outside its validity window the three events are there.  A
    block of another type, with headers, or that does not parse leaves no
    event at all: it is neither logged nor registered.  In each case the run
    goes on with the rest of the input. *)
Theorem C10_date_failure_still_registered (pemCerts rest : bytes)
  (block : pem.Block) :
  pem.Decode pemCerts = (Some block, rest) ->
  (forall cert,
      plain_certificate_block block = true ->
      x509.ParseCertificate (pem.Bytes block) = Ok cert ->
      trace (addCertsToConfig now pemCerts)
      = registration now cert ++ trace (addCertsToConfig now rest)
      /\ In (TLSCACertPool_call cert) (trace (addCertsToConfig now pemCerts))
      /\ (outside_window now cert ->
          trace (addCertsToConfig now pemCerts)
          = [ValidateCertificateDates_call cert;
             Log Warn [AStr "%v"; AErr errors.TemporalValidity];
             TLSCACertPool_call cert]
            ++ trace (addCertsToConfig now rest)))
  /\ (plain_certificate_block block = false
      \/ (exists err, x509.ParseCertificate (pem.Bytes block) = Err err) ->
      trace (addCertsToConfig now pemCerts) = trace (addCertsToConfig now rest)).
Proof.
  intros E. split.
  - intros cert Hplain Hparse.
    pose proof (trace_addCertsToConfig_cert _ _ _ _ E Hplain Hparse) as Htr.
    split; [exact Htr|]. split.
    + rewrite Htr. apply in_or_app. left. unfold registration.
      right. apply in_or_app. right. now left.
    + intros Hout. rewrite Htr. unfold registration.
      rewrite (outside_window_fails cert Hout). reflexivity.
  - intros Hskip. exact (trace_addCertsToConfig_skip _ _ _ E Hskip).
Qed.

End Properties.

(** ** The registry of the assembled manager *)

Section RegistryProperties.

Context {CS : Type}.
Context {Pem : pem.API} {X509 : x509.API} {Proto : proto.API}.
Context (P : msp.Provider CS).

Variable now : Time.





(** C8.  Assembling from no config is not an error: [createMSPManager]
    returns the new manager, whose registry is empty, without loading or
    registering anything, and [New] returns the membership object that holds
    it. *)
Theorem C8_empty_assembly (ctx : Context CS) :
  createMSPManager (Mgr := Registry P) now ctx {| MSPs := [] |} = (Ok ∅, [])
  /\ size (∅ : gmap string msp.MSP) = 0%nat
  /\ New (Mgr := Registry P) now ctx {| MSPs := [] |}
     = (Ok {| mspManager := ∅ |}, []).
Proof.
  split; [reflexivity|]. split; [apply map_size_empty | reflexivity].
Qed.

End RegistryProperties.

(** ** The claims on concrete runs *)

Import Fixture.

(** C1 on the list [org1; no_roots; org2]: the second config fails. *)
Lemma C1_witness :
  Exists (fun c => is_Err (value (loadMSPs_body c (CryptoSuite ctx))))
    [org1; no_roots; org2]
  /\ exists pre config post e,
       [org1; no_roots; org2] = pre ++ config :: post
       /\ Forall (fun c => is_Ok (value (loadMSPs_body c (CryptoSuite ctx)))) pre
       /\ value (loadMSPs_body config (CryptoSuite ctx)) = Err e
       /\ value (createMSPManager today ctx {| MSPs := [org1; no_roots; org2] |})
          = Err (errors.WithMessage e "load MSPs from config failed")
       /\ value (New today ctx {| MSPs := [org1; no_roots; org2] |})
          = Err (errors.WithMessage e "load MSPs from config failed").
Proof.
  assert (Hex : Exists (fun c => is_Err (value (loadMSPs_body c (CryptoSuite ctx))))
                  [org1; no_roots; org2]).
  { apply Exists_cons_tl, Exists_cons_hd. vm_compute. exact I. }
  split; [exact Hex|].
  exact (C1_assembly_is_atomic today ctx {| MSPs := [org1; no_roots; org2] |} Hex).
Defined.

(** What that run returns. *)
Example assemble_with_failing_config :
  assemble today [org1; no_roots; org2]
  = (Err (errors.WithMessage MissingRootCerts "load MSPs from config failed"),
     [Log Debugf [AStr "loadMSPs - start number of msps=%d"; AInt 3];
      Log Debugf [AStr "loadMSPs - adding msp=%s"; AStr "A"]]).
Proof. vm_compute. reflexivity. Qed.

(** C2 on the expired identity of MSP [A], against the manager that knows
    [A]. *)
Lemma C2_witness :
  let cert := {| x509.SerialNumber := 5; x509.NotBefore := 100;
                 x509.NotAfter := 500 |} in
  outside_window today cert
  /\ value (Validate today org1_membership expired_identity)
     = Some errors.TemporalValidity
  /\ trace (Validate today org1_membership expired_identity)
     = [ValidateCertificateDates_call cert;
        Log Warnf [AStr "Certificate error '%v' for cert '%v'";
                   AErr errors.TemporalValidity; AInt (x509.SerialNumber cert)];
        Log Errorf [AStr "Cert error %v"; AErr errors.TemporalValidity]]
  /\ Forall (fun e => calls_msp e = false)
       (trace (Validate today org1_membership expired_identity)).
Proof.
  intros cert.
  assert (Hout : outside_window today cert) by (right; vm_compute; reflexivity).
  split; [exact Hout|].
  exact (C2_validate_dates_first today org1_membership expired_identity
           {| mb.Mspid := "A"; mb.IdBytes := ["C"; "005"]%byte |}
           {| pem.Type_ := "CERTIFICATE"; pem.Headers := ∅;
              pem.Bytes := ["005"%byte] |}
           [] cert eq_refl eq_refl eq_refl Hout).
Defined.

(** The same identity with a current certificate passes [Validate], and the
    expired one passes [Verify]: only [Validate] looks at the dates. *)
Example current_identity_validates :
  value (Validate today org1_membership current_identity) = None.
Proof. vm_compute. reflexivity. Qed.

Example expired_identity_verifies (msg : bytes) :
  value (Validate today org1_membership expired_identity)
  = Some errors.TemporalValidity
  /\ Verify org1_membership expired_identity msg msg
     = (None, [DeserializeIdentity_call expired_identity;
               Identity_Verify_call msg msg]).
Proof.
  split; [vm_compute; reflexivity|].
  unfold Verify, mspManager_DeserializeIdentity, id_Verify.
  cbn. unfold Fixture.Identity_Verify.
  destruct (List.list_eq_dec Byte.byte_eq_dec msg msg); [reflexivity|congruence].
Qed.


(** Two configs with one identifier: the MSPs build and the setup of the
    manager fails, so the assembly fails. *)
Example repeated_identifier_does_not_assemble :
  value (assemble today [org1; org1_again])
  = Err (errors.WithMessage (errors.New "MSP identifier is not unique")
           "MSPManager Setup failed").
Proof. vm_compute. reflexivity. Qed.

Example distinct_identifiers_fill_the_registry :
  match value (assemble today [org1; org2]) with
  | Ok reg => size reg = 2%nat
  | Err _ => False
  end.
Proof. vm_compute. reflexivity. Qed.

(** C5 on [org1_stale_tls], whose TLS root certificate has expired. *)
Lemma C5_witness :
  let cert := {| x509.SerialNumber := 5; x509.NotBefore := 100;
                 x509.NotAfter := 500 |} in
  let m := Some {| mb.Name := "A"; mb.RootCerts := [["C"; "020"]%byte];
                   mb.IntermediateCerts := [];
                   mb.OrganizationalUnitIdentifiers := [];
                   mb.TlsRootCerts := [["C"; "005"]%byte];
                   mb.TlsIntermediateCerts := [] |} in
  let cfg := {| MSPs := [org1_stale_tls] |} in
  (carries ["C"; "005"]%byte cert /\ outside_window today cert)
  /\ value (createMSPManager today ctx cfg) = Ok (<["A" := m]> ∅)
  /\ In (Log Warn [AStr "%v"; AErr errors.TemporalValidity])
       (trace (createMSPManager today ctx cfg)).
Proof.
  intros cert m cfg.
  assert (Hcarries : carries ["C"; "005"]%byte cert).
  { apply (carries_here ["C"; "005"]%byte
             {| pem.Type_ := "CERTIFICATE"; pem.Headers := ∅;
                pem.Bytes := ["005"%byte] |} [] cert); reflexivity. }
  assert (Hout : outside_window today cert) by (right; vm_compute; reflexivity).
  split; [split; assumption|].
  apply (C5_tls_date_failure_not_fatal (P := Provider) (Mgr := Manager)
           today ctx cfg [m] (<["A" := m]> ∅) m
           ["C"; "005"]%byte cert).
  - vm_compute. reflexivity.
  - reflexivity.
  - simpl. left. reflexivity.
  - simpl. left. reflexivity.
  - exact Hcarries.
  - exact Hout.
Defined.

(** C6 fails on a list in which an earlier config fails for another
    reason: [other_type] is in the list and the error is the missing
    payload of [no_payload]. *)
Lemma C6_counterexample :
  In other_type [no_payload; other_type]
  /\ mb.Type_ other_type <> msp.FABRIC
  /\ value (assemble today [no_payload; other_type])
     = Err (errors.WithMessage MissingPayload "load MSPs from config failed")
  /\ forall e mspType,
       value (assemble today [no_payload; other_type]) = Err e ->
       errors.Cause e <> UnsupportedProviderType mspType.
Proof.
  split; [right; left; reflexivity|].
  split; [vm_compute; discriminate|].
  split; [vm_compute; reflexivity|].
  intros e mspType He. vm_compute in He. injection He as <-.
  vm_compute. discriminate.
Qed.

(** C6 as amended, on a list where [other_type] is the first to fail. *)
Lemma C6_witness :
  let cfg := {| MSPs := [org1; other_type; org2] |} in
  mb.Type_ other_type <> msp.FABRIC
  /\ is_Err (value (createMSPManager today ctx cfg))
  /\ (Forall (fun c => is_Ok (value (loadMSPs_body c (CryptoSuite ctx)))) [org1] ->
      value (createMSPManager today ctx cfg)
      = Err (errors.WithMessage (UnsupportedProviderType (mb.Type_ other_type))
               "load MSPs from config failed"))
  /\ (exists first_pre first first_post e,
        MSPs cfg = first_pre ++ first :: first_post
        /\ Forall (fun c => is_Ok (value (loadMSPs_body c (CryptoSuite ctx))))
             first_pre
        /\ value (loadMSPs_body first (CryptoSuite ctx)) = Err e
        /\ value (createMSPManager today ctx cfg)
           = Err (errors.WithMessage e "load MSPs from config failed")).
Proof.
  intros cfg.
  assert (Htype : mb.Type_ other_type <> msp.FABRIC) by (vm_compute; discriminate).
  split; [exact Htype|].
  exact (C6_unsupported_provider_type today ctx cfg [org1] [org2] other_type
           eq_refl Htype).
Defined.

Example unsupported_type_alone :
  value (assemble today [other_type])
  = Err (errors.WithMessage (UnsupportedProviderType 1)
           "load MSPs from config failed").
Proof. vm_compute. reflexivity. Qed.

(** C7 fails on a config of the supported type whose decoded configuration
    has no root certificates and no name either: the error is the missing
    name. *)
Lemma C7_counterexample :
  mb.Type_ unnamed_no_roots = msp.FABRIC
  /\ (exists fabricConfig,
        proto.Unmarshal_FabricMSPConfig (mb.Config unnamed_no_roots)
        = Ok fabricConfig
        /\ mb.RootCerts fabricConfig = [])
  /\ value (assemble today [unnamed_no_roots])
     = Err (errors.WithMessage MissingName "load MSPs from config failed")
  /\ forall e,
       value (assemble today [unnamed_no_roots]) = Err e ->
       errors.Cause e <> MissingRootCerts.
Proof.
  split; [reflexivity|].
  split; [eexists; split; reflexivity|].
  split; [vm_compute; reflexivity|].
  intros e He. vm_compute in He. injection He as <-.
  vm_compute. discriminate.
Qed.

(** Two more inputs on which the error is not the missing root
    certificates: the empty payload, which decodes to a configuration
    without root certificates, and a list in which an earlier config
    fails. *)
Example no_payload_alone :
  (exists fabricConfig,
     proto.Unmarshal_FabricMSPConfig (mb.Config no_payload) = Ok fabricConfig
     /\ mb.RootCerts fabricConfig = [])
  /\ value (assemble today [no_payload])
     = Err (errors.WithMessage MissingPayload "load MSPs from config failed").
Proof.
  split; [eexists; split; reflexivity | vm_compute; reflexivity].
Qed.

Example no_roots_after_other_type :
  value (assemble today [other_type; no_roots])
  = Err (errors.WithMessage (UnsupportedProviderType 1)
           "load MSPs from config failed").
Proof. vm_compute. reflexivity. Qed.

(** C7 as amended, on [no_roots] alone. *)
Lemma C7_witness :
  let cfg := {| MSPs := [no_roots] |} in
  let fabricConfig :=
    {| mb.Name := "A"; mb.RootCerts := []; mb.IntermediateCerts := [];
       mb.OrganizationalUnitIdentifiers := [];
       mb.TlsRootCerts := [["C"; "020"]%byte];
       mb.TlsIntermediateCerts := [] |} in
  (mb.Type_ no_roots = msp.FABRIC
   /\ mb.Config no_roots <> []
   /\ proto.Unmarshal_FabricMSPConfig (mb.Config no_roots) = Ok fabricConfig
   /\ mb.Name fabricConfig <> ""
   /\ mb.RootCerts fabricConfig = [])
  /\ is_Err (value (createMSPManager today ctx cfg))
  /\ (Forall (fun c => is_Ok (value (loadMSPs_body c (CryptoSuite ctx)))) [] ->
      value (createMSPManager today ctx cfg)
      = Err (errors.WithMessage MissingRootCerts "load MSPs from config failed")).
Proof.
  intros cfg fabricConfig.
  assert (Hpayload : mb.Config no_roots <> []) by (vm_compute; discriminate).
  assert (Hname : mb.Name fabricConfig <> "") by (vm_compute; discriminate).
  split; [repeat split; try reflexivity; assumption|].
  exact (C7_missing_root_certs today ctx cfg [] [] no_roots fabricConfig
           eq_refl eq_refl Hpayload eq_refl Hname eq_refl).
Defined.

(** C9 on a list whose first config has TLS certificates and whose second
    config fails. *)
Lemma C9_witness :
  let cfg := {| MSPs := [org1_stale_tls; no_roots] |} in
  is_Err (value (createMSPManager today ctx cfg))
  /\ Forall (fun e => registers e = false) (trace (createMSPManager today ctx cfg)).
Proof.
  intros cfg.
  assert (Herr : is_Err (value (createMSPManager today ctx cfg)))
    by (vm_compute; exact I).
  split; [exact Herr|].
  exact (C9_no_registration_on_failure today ctx cfg Herr).
Defined.

(** C10 on a PEM input with an expired certificate followed by a key. *)
Lemma C10_witness :
  let cert := {| x509.SerialNumber := 5; x509.NotBefore := 100;
                 x509.NotAfter := 500 |} in
  let block := {| pem.Type_ := "CERTIFICATE"; pem.Headers := ∅;
                  pem.Bytes := ["005"%byte] |} in
  let pemCerts := ["C"; "005"; "K"; "001"]%byte in
  let rest := ["K"; "001"]%byte in
  pem.Decode pemCerts = (Some block, rest)
  /\ (forall c,
        plain_certificate_block block = true ->
        x509.ParseCertificate (pem.Bytes block) = Ok c ->
        trace (addCertsToConfig today pemCerts)
        = registration today c ++ trace (addCertsToConfig today rest)
        /\ In (TLSCACertPool_call c) (trace (addCertsToConfig today pemCerts))
        /\ (outside_window today c ->
            trace (addCertsToConfig today pemCerts)
            = [ValidateCertificateDates_call c;
               Log Warn [AStr "%v"; AErr errors.TemporalValidity];
               TLSCACertPool_call c]
              ++ trace (addCertsToConfig today rest)))
  /\ (plain_certificate_block block = false
      \/ (exists err, x509.ParseCertificate (pem.Bytes block) = Err err) ->
      trace (addCertsToConfig today pemCerts)
      = trace (addCertsToConfig today rest)).
Proof.
  intros cert block pemCerts rest.
  assert (E : pem.Decode pemCerts = (Some block, rest)) by reflexivity.
  split; [exact E|].
  exact (C10_date_failure_still_registered today pemCerts rest block E).
Defined.

(** The run itself: the expired certificate is checked, warned about and
    registered; the key block leaves no event; a block with headers and a
    block that does not parse leave none either. *)
Example addCertsToConfig_expired_then_key :
  addCertsToConfig today ["C"; "005"; "K"; "001"]%byte
  = (tt, [ValidateCertificateDates_call
            {| x509.SerialNumber := 5; x509.NotBefore := 100;
               x509.NotAfter := 500 |};
          Log Warn [AStr "%v"; AErr errors.TemporalValidity];
          TLSCACertPool_call
            {| x509.SerialNumber := 5; x509.NotBefore := 100;
               x509.NotAfter := 500 |}]).
Proof. vm_compute. reflexivity. Qed.

Example addCertsToConfig_skips :
  addCertsToConfig today ["H"; "020"; "C"; "000"; "K"; "020"]%byte = (tt, []).
Proof. vm_compute. reflexivity. Qed.

(** * Further properties of the membership package *)

(** ** Laws of the trace monad *)

Lemma bind_ret_l {A B : Type} (a : A) (k : A -> M B) : bind (ret a) k = k a.
Proof. unfold bind, ret. destruct (k a) as [b t]. reflexivity. Qed.

Lemma bind_ret_r {A : Type} (m : M A) : bind m ret = m.
Proof. unfold bind, ret. destruct m as [a t]. now rewrite app_nil_r. Qed.

Lemma bind_assoc {A B C : Type} (m : M A) (f : A -> M B) (g : B -> M C) :
  bind (bind m f) g = bind m (fun a => bind (f a) g).
Proof.
  unfold bind. destruct m as [a t1]. destruct (f a) as [b t2].
  destruct (g b) as [c t3]. now rewrite app_assoc.
Qed.

Lemma bind_ext {A B : Type} (m : M A) (f g : A -> M B) :
  (forall a, f a = g a) -> bind m f = bind m g.
Proof. intros Hfg. unfold bind. destruct m as [a t]. now rewrite Hfg. Qed.

Lemma In_trace_for_range {A : Type} (l : list A) (body : A -> M unit)
  (e : event) :
  In e (trace (for_range l body)) <->
  exists x, In x l /\ In e (trace (body x)).
Proof.
  split.
  - induction l as [|y rest IH]; simpl.
    + contradiction.
    + rewrite trace_bind. intros Hin. apply in_app_or in Hin as [Hy | Hrest].
      * exists y. split; [now left | exact Hy].
      * destruct (IH Hrest) as [x [Hx He]]. exists x. split; [now right | exact He].
  - intros [x [Hx He]]. exact (trace_for_range_In l body x e Hx He).
Qed.

Section MoreProperties.

Context {CS : Type}.
Context {Pem : pem.API} {X509 : x509.API} {Proto : proto.API}.
Context {P : msp.Provider CS} {Mgr : msp.Manager P}.

Variable now : Time.

(** ** [areCertDatesValid] and [Validate] *)

(** The three ways [areCertDatesValid] can run: the identity does not decode
    to a certificate, and nothing is called or logged; the date check
    passes; the date check fails, and the failure is logged. *)
Lemma areCertDatesValid_cases (serializedID : bytes) :
  (exists e, areCertDatesValid now serializedID = (Some e, []))
  \/ (exists cert,
        verifier.ValidateCertificateDates now cert = None
        /\ areCertDatesValid now serializedID
           = (None, [ValidateCertificateDates_call cert]))
  \/ (exists cert err,
        verifier.ValidateCertificateDates now cert = Some err
        /\ areCertDatesValid now serializedID
           = (Some err,
              [ValidateCertificateDates_call cert;
               Log Warnf [AStr "Certificate error '%v' for cert '%v'";
                          AErr err; AInt (x509.SerialNumber cert)]])).
Proof.
  unfold areCertDatesValid.
  destruct (proto.Unmarshal_SerializedIdentity serializedID) as [sID|err].
  2:{ left. eexists. reflexivity. }
  destruct (fst (pem.Decode (mb.IdBytes sID))) as [bl|].
  2:{ left. eexists. reflexivity. }
  destruct (x509.ParseCertificate (pem.Bytes bl)) as [cert|err].
  2:{ left. eexists. reflexivity. }
  unfold verifier_ValidateCertificateDates.
  destruct (verifier.ValidateCertificateDates now cert) as [err|] eqn:E.
  - right. right. exists cert, err. rewrite E. split; reflexivity.
  - right. left. exists cert. rewrite E. split; reflexivity.
Qed.

(** X1.  Whatever makes [areCertDatesValid] fail (an identity that does not
    decode, a PEM input without block, a certificate that does not parse, a
    failed date check), [Validate] returns that very error, logs it with
    [Errorf] as its last action, and calls neither the MSP manager nor an
    identity. *)
Theorem Validate_returns_date_stage_error (i : identityImpl)
  (serializedID : bytes) (e : error) :
  value (areCertDatesValid now serializedID) = Some e ->
  value (Validate now i serializedID) = Some e
  /\ trace (Validate now i serializedID)
     = trace (areCertDatesValid now serializedID)
       ++ [Log Errorf [AStr "Cert error %v"; AErr e]]
  /\ Forall (fun ev => calls_msp ev = false) (trace (Validate now i serializedID)).
Proof.
  intros He.
  assert (Htr : trace (Validate now i serializedID)
                = trace (areCertDatesValid now serializedID)
                  ++ [Log Errorf [AStr "Cert error %v"; AErr e]]).
  { unfold Validate. rewrite trace_bind, He. reflexivity. }
  split; [|split; [exact Htr|]].
  - unfold Validate. rewrite value_bind, He. reflexivity.
  - rewrite Htr. apply Forall_app. split; [|repeat constructor].
    destruct (areCertDatesValid_cases serializedID)
      as [[e' Hrun] | [[cert [_ Hrun]] | [cert [err [_ Hrun]]]]];
      rewrite Hrun; repeat constructor.
Qed.

(** X2.  [Validate] returns no error exactly when the identity decodes to a
    certificate (protobuf, first PEM block, X.509), the date check of that
    certificate passes, the MSP manager deserializes the identity, and the
    identity validates itself. *)
Theorem Validate_nil_iff (i : identityImpl) (serializedID : bytes) :
  value (Validate now i serializedID) = None <->
  exists sID bl rest cert id,
    proto.Unmarshal_SerializedIdentity serializedID = Ok sID
    /\ pem.Decode (mb.IdBytes sID) = (Some bl, rest)
    /\ x509.ParseCertificate (pem.Bytes bl) = Ok cert
    /\ verifier.ValidateCertificateDates now cert = None
    /\ msp.DeserializeIdentity (mspManager i) serializedID = Ok id
    /\ msp.Identity_Validate id = None.
Proof.
  unfold Validate, areCertDatesValid, verifier_ValidateCertificateDates,
    mspManager_DeserializeIdentity, id_Validate.
  split.
  - destruct (proto.Unmarshal_SerializedIdentity serializedID) as [sID|err];
      [|rewrite value_bind; discriminate].
    destruct (pem.Decode (mb.IdBytes sID)) as [[bl|] rest] eqn:Epem;
      [|rewrite value_bind; discriminate].
    cbn [fst].
    destruct (x509.ParseCertificate (pem.Bytes bl)) as [cert|err] eqn:Eparse;
      [|rewrite value_bind; discriminate].
    destruct (verifier.ValidateCertificateDates now cert) as [err|] eqn:Edates;
      [rewrite !value_bind; discriminate|].
    destruct (msp.DeserializeIdentity (mspManager i) serializedID)
      as [id|err] eqn:Eid; [|rewrite !value_bind; discriminate].
    rewrite !value_bind. cbn. intros Hid.
    exists sID, bl, rest, cert, id. repeat split; try reflexivity; assumption.
  - intros (sID & bl & rest & cert & id & Hsid & Hpem & Hparse & Hdates & Hid & Hval).
    rewrite Hsid, Hpem. cbn [fst]. rewrite Hparse, Hdates, Hid.
    rewrite !value_bind. cbn. exact Hval.
Qed.

(** X3.  [Validate] asks the MSP manager to deserialize an identity only
    after the date check of its certificate has passed: a run with such a
    call starts with the date check, which succeeded, followed by the call,
    on the identity given to [Validate]. *)
Theorem Validate_deserializes_after_date_check (i : identityImpl)
  (serializedID s : bytes) :
  In (DeserializeIdentity_call s) (trace (Validate now i serializedID)) ->
  s = serializedID
  /\ exists cert rest,
       verifier.ValidateCertificateDates now cert = None
       /\ trace (Validate now i serializedID)
          = ValidateCertificateDates_call cert
            :: DeserializeIdentity_call serializedID :: rest.
Proof.
  unfold Validate.
  destruct (areCertDatesValid_cases serializedID)
    as [[e Hrun] | [[cert [Hdates Hrun]] | [cert [err [_ Hrun]]]]];
    rewrite Hrun.
  - cbn. intros [Hin | []]. discriminate.
  - unfold mspManager_DeserializeIdentity.
    destruct (msp.DeserializeIdentity (mspManager i) serializedID) as [id|err];
      cbn; intros Hin.
    + destruct Hin as [Hin | [Hin | [Hin | []]]]; try discriminate.
      injection Hin as <-. split; [reflexivity|].
      exists cert, [Identity_Validate_call]. split; [exact Hdates | reflexivity].
    + destruct Hin as [Hin | [Hin | []]]; try discriminate.
      injection Hin as <-. split; [reflexivity|].
      exists cert, []. split; [exact Hdates | reflexivity].
  - cbn. intros [Hin | [Hin | [Hin | []]]]; discriminate.
Qed.

(** X4.  [areCertDatesValid] looks at the bytes of the first PEM block of the
    identity and at nothing else: neither the type of the block nor its
    headers are checked, and the MSP id and the input after the block play
    no part.  Two identities whose first blocks hold the same bytes run
    alike. *)
Theorem areCertDatesValid_first_block_bytes_only
  (serializedID1 serializedID2 : bytes) (sID1 sID2 : mb.SerializedIdentity)
  (bl1 bl2 : pem.Block) (rest1 rest2 : bytes) :
  proto.Unmarshal_SerializedIdentity serializedID1 = Ok sID1 ->
  proto.Unmarshal_SerializedIdentity serializedID2 = Ok sID2 ->
  pem.Decode (mb.IdBytes sID1) = (Some bl1, rest1) ->
  pem.Decode (mb.IdBytes sID2) = (Some bl2, rest2) ->
  pem.Bytes bl1 = pem.Bytes bl2 ->
  areCertDatesValid now serializedID1 = areCertDatesValid now serializedID2.
Proof.
  intros H1 H2 Hpem1 Hpem2 Hbytes.
  unfold areCertDatesValid.
  rewrite H1, H2, Hpem1, Hpem2. cbn [fst]. rewrite Hbytes. reflexivity.
Qed.

(** ** [getFabricConfig] and [loadMSPs] *)

(** X5.  [getFabricConfig] returns a configuration exactly when the payload
    of the config decodes to it and it has a name and at least one root
    certificate; the configuration returned is the decoded one. *)
Theorem getFabricConfig_Ok_iff (config : mb.MSPConfig)
  (fabricConfig : mb.FabricMSPConfig) :
  getFabricConfig config = Ok fabricConfig <->
  proto.Unmarshal_FabricMSPConfig (mb.Config config) = Ok fabricConfig
  /\ mb.Name fabricConfig <> ""
  /\ mb.RootCerts fabricConfig <> [].
Proof.
  unfold getFabricConfig.
  destruct (proto.Unmarshal_FabricMSPConfig (mb.Config config)) as [fc|err].
  2:{ split; [discriminate | intros [H _]; discriminate]. }
  destruct (String.eqb_spec (mb.Name fc) "") as [Hname | Hname].
  { split; [discriminate|]. intros ([= <-] & Hn & _). contradiction. }
  destruct (len (mb.RootCerts fc) =? 0) eqn:Hroots.
  - split; [discriminate|]. intros ([= <-] & _ & Hr).
    apply Z.eqb_eq in Hroots. unfold len in Hroots.
    destruct (mb.RootCerts fc); [contradiction | simpl length in Hroots; lia].
  - split.
    + intros [= <-]. repeat split; [exact Hname|].
      intros Hnil. rewrite Hnil in Hroots. discriminate.
    + intros ([= <-] & _ & _). reflexivity.
Qed.

(** X6.  An MSP that [loadMSPs] built from a config stands for a config of
    the supported type with a payload that passed [getFabricConfig]; it is
    the MSP instantiated for version 1.0 with the crypto suite and set up
    with that config without error, and its identifier can be retrieved. *)
Theorem loadMSPs_body_Ok (config : mb.MSPConfig) (cs : CS) (m : msp.MSP) :
  value (loadMSPs_body config cs) = Ok m ->
  mb.Type_ config = msp.FABRIC
  /\ mb.Config config <> []
  /\ (exists fabricConfig, getFabricConfig config = Ok fabricConfig)
  /\ (exists newMSP,
        msp.NewBccspMsp msp.MSPv1_0 cs = Ok newMSP
        /\ msp.MSP_Setup newMSP config = (m, None))
  /\ exists mspID, msp.GetIdentifier m = Ok mspID.
Proof.
  unfold loadMSPs_body.
  destruct (mb.Type_ config =? msp.FABRIC) eqn:Htype; [|discriminate].
  cbn [negb].
  destruct (len (mb.Config config) =? 0) eqn:Hlen; [discriminate|].
  destruct (getFabricConfig config) as [fc|err]; [|discriminate].
  rewrite value_bind.
  destruct (msp.NewBccspMsp msp.MSPv1_0 cs) as [newMSP|err]; [|discriminate].
  destruct (msp.MSP_Setup newMSP config) as [newMSP' [err|]] eqn:Hsetup;
    [discriminate|].
  destruct (msp.GetIdentifier newMSP') as [mspID|err] eqn:Hid; [|discriminate].
  rewrite value_bind. intros [= <-].
  split; [now apply Z.eqb_eq|].
  split.
  { intros Hnil. rewrite Hnil in Hlen. discriminate. }
  split; [now exists fc|].
  split; [exists newMSP; split; [reflexivity | exact Hsetup]|].
  now exists mspID.
Qed.

Lemma loadMSPs_loop_built (mspConfigs : list mb.MSPConfig) (cs : CS)
  (built : list msp.MSP) :
  Forall2 (fun c m => value (loadMSPs_body c cs) = Ok m) mspConfigs built ->
  forall msps, value (loadMSPs_loop mspConfigs cs msps) = Ok (msps ++ built).
Proof.
  induction 1 as [|c m rest built' Hc _ IH]; intros msps; simpl.
  - now rewrite app_nil_r.
  - rewrite value_bind, Hc, IH, <- app_assoc. reflexivity.
Qed.

(** X7.  [loadMSPs] returns a list of MSPs exactly when every config builds,
    and the list holds the MSPs built, one per config and in the order of
    the configs. *)
Theorem loadMSPs_Ok_iff (mspConfigs : list mb.MSPConfig) (cs : CS)
  (msps : list msp.MSP) :
  value (loadMSPs mspConfigs cs) = Ok msps <->
  Forall2 (fun c m => value (loadMSPs_body c cs) = Ok m) mspConfigs msps.
Proof.
  rewrite value_loadMSPs. split.
  - intros Hv. destruct (loadMSPs_loop_Ok _ _ _ _ Hv) as [built [-> Hb]].
    exact Hb.
  - intros Hb. exact (loadMSPs_loop_built _ _ _ Hb []).
Qed.

(** The loop of [loadMSPs] over two lists of configs in a row is the loop
    over the first, followed, when it succeeds, by the loop over the second
    started with the MSPs of the first; values and traces agree. *)
Lemma loadMSPs_loop_app (l1 l2 : list mb.MSPConfig) (cs : CS) :
  forall msps,
    loadMSPs_loop (l1 ++ l2) cs msps
    = let! r := loadMSPs_loop l1 cs msps in
      match r with
      | Err err => ret (Err err)
      | Ok msps' => loadMSPs_loop l2 cs msps'
      end.
Proof.
  induction l1 as [|c rest IH]; intros msps.
  - cbn [app loadMSPs_loop]. now rewrite bind_ret_l.
  - cbn [app loadMSPs_loop]. rewrite bind_assoc. apply bind_ext.
    intros [m|err].
    + apply IH.
    + now rewrite bind_ret_l.
Qed.

(** ** [createMSPManager] *)

(** X9.  When the MSPs of a non-empty configuration build and the setup of
    the manager fails, [createMSPManager] returns the error of the setup
    under the message of that step, and it has done nothing beyond loading
    the MSPs: no TLS certificate was checked or registered. *)
Theorem createMSPManager_Setup_failure (ctx : Context CS) (cfg : ChannelCfg)
  (msps : list msp.MSP) (mgr : msp.MSPManager) (err : error) :
  MSPs cfg <> [] ->
  value (loadMSPs (MSPs cfg) (CryptoSuite ctx)) = Ok msps ->
  msp.MSPManager_Setup msp.NewMSPManager msps = (mgr, Some err) ->
  value (createMSPManager now ctx cfg)
  = Err (errors.WithMessage err "MSPManager Setup failed")
  /\ trace (createMSPManager now ctx cfg)
     = trace (loadMSPs (MSPs cfg) (CryptoSuite ctx)).
Proof.
  intros Hne Hload Hsetup. split.
  - rewrite (value_createMSPManager now ctx cfg Hne), Hload, Hsetup. reflexivity.
  - rewrite (trace_createMSPManager now ctx cfg Hne), Hload, Hsetup.
    apply app_nil_r.
Qed.

(** ** [addCertsToConfig] and the registrations of an assembly *)

Lemma carries_inv (pemCerts rest : bytes) (block : pem.Block)
  (c : x509.Certificate) :
  pem.Decode pemCerts = (Some block, rest) ->
  carries pemCerts c ->
  (plain_certificate_block block = true
   /\ x509.ParseCertificate (pem.Bytes block) = Ok c)
  \/ carries rest c.
Proof.
  intros E Hc. inversion Hc as [? block' rest' ? E' Hplain Hparse
                               |? block' rest' ? E' Hrest]; subst.
  - rewrite E in E'. injection E' as <- <-. left. now split.
  - rewrite E in E'. injection E' as <- <-. now right.
Qed.

(** The run of [addCertsToConfig] as a list of certificates: those the input
    carries, each with its date check, its warning if any, and its
    registration. *)
Lemma addCertsToConfig_runs (pemCerts : bytes) :
  exists certs,
    trace (addCertsToConfig now pemCerts) = flat_map (registration now) certs
    /\ forall c, In c certs <-> carries pemCerts c.
Proof.
  remember (length pemCerts) as n eqn:Hn.
  revert pemCerts Hn.
  induction n as [n IH] using lt_wf_ind. intros pemCerts Hn.
  destruct (pem.Decode pemCerts) as [[block|] rest] eqn:E.
  - pose proof (pem.Decode_rest _ _ _ E) as Hlt.
    destruct (IH (length rest) ltac:(lia) rest eq_refl) as [certs [Htr Hin]].
    destruct (plain_certificate_block block) eqn:Hplain.
    + destruct (x509.ParseCertificate (pem.Bytes block)) as [cert|err] eqn:Hparse.
      * exists (cert :: certs). split.
        -- rewrite (trace_addCertsToConfig_cert now _ _ _ _ E Hplain Hparse), Htr.
           reflexivity.
        -- intros c. split.
           ++ intros [<- | Hc].
              ** exact (carries_here _ _ _ _ E Hplain Hparse).
              ** apply (carries_later _ _ _ _ E). now apply Hin.
           ++ intros Hc. destruct (carries_inv _ _ _ _ E Hc) as [[_ Hp] | Hrest].
              ** rewrite Hparse in Hp. injection Hp as <-. now left.
              ** right. now apply Hin.
      * exists certs. split.
        -- rewrite (trace_addCertsToConfig_skip now _ _ _ E); [exact Htr|].
           right. now exists err.
        -- intros c. split.
           ++ intros Hc. apply (carries_later _ _ _ _ E). now apply Hin.
           ++ intros Hc. destruct (carries_inv _ _ _ _ E Hc) as [[_ Hp] | Hrest].
              ** rewrite Hparse in Hp. discriminate.
              ** now apply Hin.
    + exists certs. split.
      * rewrite (trace_addCertsToConfig_skip now _ _ _ E); [exact Htr|].
        now left.
      * intros c. split.
        -- intros Hc. apply (carries_later _ _ _ _ E). now apply Hin.
        -- intros Hc. destruct (carries_inv _ _ _ _ E Hc) as [[Hp _] | Hrest].
           ++ rewrite Hplain in Hp. discriminate.
           ++ now apply Hin.
  - exists []. split.
    + exact (trace_addCertsToConfig_break now _ _ E).
    + intros c. split; [contradiction|].
      intros Hc. inversion Hc as [? ? ? ? E' _ _ | ? ? ? ? E' _]; subst;
        rewrite E in E'; discriminate.
Qed.

Lemma In_registration (c cert : x509.Certificate) :
  In (TLSCACertPool_call c) (registration now cert) <-> c = cert.
Proof.
  unfold registration. split.
  - intros [Hin | Hin]; [discriminate|].
    apply in_app_or in Hin as [Hin | Hin].
    + destruct (verifier.ValidateCertificateDates now cert);
        [destruct Hin as [Hin | []]; discriminate | contradiction].
    + destruct Hin as [Hin | []]. now injection Hin.
  - intros ->. right. apply in_or_app. right. now left.
Qed.

Lemma addCertsToConfig_registers_iff (pemCerts : bytes) (c : x509.Certificate) :
  In (TLSCACertPool_call c) (trace (addCertsToConfig now pemCerts))
  <-> carries pemCerts c.
Proof.
  destruct (addCertsToConfig_runs pemCerts) as [certs [Htr Hin]].
  rewrite Htr, <- Hin, in_flat_map. split.
  - intros [cert [Hcert Hreg]]. apply In_registration in Hreg. now subst.
  - intros Hc. exists c. split; [exact Hc | now apply In_registration].
Qed.

(** The certificates of an input, block by block, are determined by the
    input. *)
Lemma carried_in_order_unique (pemCerts : bytes)
  (certs1 : list x509.Certificate) :
  carried_in_order pemCerts certs1 ->
  forall certs2, carried_in_order pemCerts certs2 -> certs1 = certs2.
Proof.
  induction 1 as [pemCerts rest E
                 |pemCerts block rest cert certs E Hplain Hparse _ IH
                 |pemCerts block rest certs E Hskip _ IH];
    intros certs2 H2;
    inversion H2 as [? rest' E'
                    |? block' rest' cert' certs' E' Hplain' Hparse' Hrest'
                    |? block' rest' certs' E' Hskip' Hrest']; subst;
    rewrite E in E'; try discriminate.
  - reflexivity.
  - injection E' as <- <-.
    rewrite Hparse in Hparse'. injection Hparse' as <-.
    f_equal. now apply IH.
  - injection E' as <- <-.
    destruct Hskip' as [Hf | [err Herr]].
    + rewrite Hplain in Hf. discriminate.
    + rewrite Hparse in Herr. discriminate.
  - injection E' as <- <-.
    destruct Hskip as [Hf | [err Herr]].
    + rewrite Hplain' in Hf. discriminate.
    + rewrite Hparse' in Herr. discriminate.
  - injection E' as <- <-. now apply IH.
Qed.

(** Every input has such a list. *)
Lemma carried_in_order_exists (pemCerts : bytes) :
  exists certs, carried_in_order pemCerts certs.
Proof.
  remember (length pemCerts) as n eqn:Hn.
  revert pemCerts Hn.
  induction n as [n IH] using lt_wf_ind. intros pemCerts Hn.
  destruct (pem.Decode pemCerts) as [[block|] rest] eqn:E.
  - pose proof (pem.Decode_rest _ _ _ E) as Hlt.
    destruct (IH (length rest) ltac:(lia) rest eq_refl) as [certs Hrest].
    destruct (plain_certificate_block block) eqn:Hplain.
    + destruct (x509.ParseCertificate (pem.Bytes block)) as [cert|err] eqn:Hparse.
      * exists (cert :: certs).
        exact (carried_cert _ _ _ _ _ E Hplain Hparse Hrest).
      * exists certs. apply (carried_skip _ _ _ _ E); [|exact Hrest].
        right. now exists err.
    + exists certs. apply (carried_skip _ _ _ _ E); [now left | exact Hrest].
  - exists []. exact (carried_end _ _ E).
Qed.

(** The run of [addCertsToConfig] is the run of these certificates. *)
Lemma carried_in_order_trace (pemCerts : bytes)
  (certs : list x509.Certificate) :
  carried_in_order pemCerts certs ->
  trace (addCertsToConfig now pemCerts) = flat_map (registration now) certs.
Proof.
  induction 1 as [pemCerts rest E
                 |pemCerts block rest cert certs E Hplain Hparse _ IH
                 |pemCerts block rest certs E Hskip _ IH].
  - exact (trace_addCertsToConfig_break now _ _ E).
  - rewrite (trace_addCertsToConfig_cert now _ _ _ _ E Hplain Hparse), IH.
    reflexivity.
  - rewrite (trace_addCertsToConfig_skip now _ _ _ E Hskip). exact IH.
Qed.

(** They are the certificates the input carries. *)
Lemma carried_in_order_In (pemCerts : bytes) (certs : list x509.Certificate) :
  carried_in_order pemCerts certs ->
  forall c, In c certs <-> carries pemCerts c.
Proof.
  induction 1 as [pemCerts rest E
                 |pemCerts block rest cert certs E Hplain Hparse _ IH
                 |pemCerts block rest certs E Hskip _ IH]; intros c.
  - split; [contradiction|].
    intros Hc. inversion Hc as [? ? ? ? E' _ _ | ? ? ? ? E' _]; subst;
      rewrite E in E'; discriminate.
  - split.
    + intros [<- | Hc].
      * exact (carries_here _ _ _ _ E Hplain Hparse).
      * apply (carries_later _ _ _ _ E). now apply IH.
    + intros Hc. destruct (carries_inv _ _ _ _ E Hc) as [[_ Hp] | Hrest].
      * rewrite Hparse in Hp. injection Hp as <-. now left.
      * right. now apply IH.
  - split.
    + intros Hc. apply (carries_later _ _ _ _ E). now apply IH.
    + intros Hc. destruct (carries_inv _ _ _ _ E Hc) as [[Hp Hq] | Hrest].
      * destruct Hskip as [Hf | [err Herr]].
        -- rewrite Hp in Hf. discriminate.
        -- rewrite Hq in Herr. discriminate.
      * now apply IH.
Qed.

(** X10.  The trace of [addCertsToConfig] is made of one group of events per
    certificate block of the input, in the order of the input.  Reading the
    input block by block gives one list of certificates: one entry for each
    CERTIFICATE block without headers that parses, in the order of the
    blocks, a certificate that occurs twice being listed twice.  The trace
    is, for each certificate of that list in turn, the date check of the
    certificate, a warning if the check failed, and the registration, and
    nothing else.  The certificates of the list are those the input
    carries. *)
Theorem addCertsToConfig_trace (pemCerts : bytes) :
  (exists certs, carried_in_order pemCerts certs)
  /\ (forall certs1 certs2,
        carried_in_order pemCerts certs1 ->
        carried_in_order pemCerts certs2 -> certs1 = certs2)
  /\ (forall certs,
        carried_in_order pemCerts certs ->
        trace (addCertsToConfig now pemCerts) = flat_map (registration now) certs
        /\ forall c, In c certs <-> carries pemCerts c).
Proof.
  split; [exact (carried_in_order_exists pemCerts)|].
  split.
  - intros certs1 certs2 H1 H2.
    exact (carried_in_order_unique pemCerts certs1 H1 certs2 H2).
  - intros certs Hcerts. split.
    + exact (carried_in_order_trace pemCerts certs Hcerts).
    + exact (carried_in_order_In pemCerts certs Hcerts).
Qed.

(** X11.  What a successful assembly registers with the TLS trust pool: a
    certificate is registered exactly when one of the TLS root or
    intermediate certificate inputs of one of the MSPs built carries it. *)
Theorem createMSPManager_registers_iff (ctx : Context CS) (cfg : ChannelCfg)
  (msps : list msp.MSP) (mgr : msp.MSPManager) (c : x509.Certificate) :
  value (loadMSPs (MSPs cfg) (CryptoSuite ctx)) = Ok msps ->
  msp.MSPManager_Setup msp.NewMSPManager msps = (mgr, None) ->
  In (TLSCACertPool_call c) (trace (createMSPManager now ctx cfg))
  <-> exists m pemCerts,
        In m msps
        /\ In pemCerts (msp.GetTLSRootCerts m ++ msp.GetTLSIntermediateCerts m)
        /\ carries pemCerts c.
Proof.
  intros Hload Hsetup.
  destruct (MSPs cfg) as [|c0 rest0] eqn:Hcfg.
  { rewrite (createMSPManager_nil now ctx cfg Hcfg).
    rewrite value_loadMSPs in Hload. simpl in Hload. injection Hload as <-.
    split; [contradiction | intros (m & _ & [] & _)]. }
  assert (Hne : MSPs cfg <> []) by (rewrite Hcfg; discriminate).
  rewrite (trace_createMSPManager now ctx cfg Hne), Hcfg, Hload, Hsetup.
  assert (Hnolog : ~ In (TLSCACertPool_call c)
                     (trace (loadMSPs (c0 :: rest0) (CryptoSuite ctx)))).
  { intros Hin.
    pose proof (trace_loadMSPs_logs (c0 :: rest0) (CryptoSuite ctx)) as Hlogs.
    rewrite List.Forall_forall in Hlogs. apply Hlogs in Hin. discriminate. }
  split.
  - intros Hin. apply in_app_or in Hin as [Hin | Hin]; [contradiction|].
    apply In_trace_for_range in Hin as [m [Hm Hin]].
    rewrite trace_bind in Hin.
    exists m.
    apply in_app_or in Hin as [Hin | Hin];
      apply In_trace_for_range in Hin as [pemCerts [Hpem Hin]];
      exists pemCerts; (split; [exact Hm|]);
      (split; [|now apply addCertsToConfig_registers_iff]);
      apply in_or_app; [now left | now right].
  - intros (m & pemCerts & Hm & Hpem & Hc).
    apply in_or_app. right.
    apply In_trace_for_range. exists m. split; [exact Hm|].
    rewrite trace_bind. apply in_or_app.
    apply addCertsToConfig_registers_iff in Hc.
    apply in_app_or in Hpem as [Hroot | Hinter]; [left | right];
      apply In_trace_for_range; now exists pemCerts.
Qed.

(** ** The clock *)

Lemma addCertsToConfig_loop_clock (now' : Time) (fuel : nat) :
  forall pemCerts : bytes,
    List.filter (fun e => negb (date_warning e))
      (trace (addCertsToConfig_loop now fuel pemCerts))
    = List.filter (fun e => negb (date_warning e))
        (trace (addCertsToConfig_loop now' fuel pemCerts)).
Proof.
  induction fuel as [|fuel IH]; intros pemCerts; cbn [addCertsToConfig_loop].
  - destruct (0 <? len pemCerts); reflexivity.
  - destruct (0 <? len pemCerts); [|reflexivity].
    destruct (pem.Decode pemCerts) as [[block|] rest]; [|reflexivity].
    destruct (negb (pem.Type_ block =? "CERTIFICATE")%string
              || negb (Z.of_nat (size (pem.Headers block)) =? 0)); [apply IH|].
    destruct (x509.ParseCertificate (pem.Bytes block)) as [cert|err]; [|apply IH].
    rewrite !trace_bind, !List.filter_app, (IH rest).
    unfold verifier_ValidateCertificateDates.
    rewrite !value_bind. cbn [value ret emit bind fst snd trace app].
    destruct (verifier.ValidateCertificateDates now cert);
      destruct (verifier.ValidateCertificateDates now' cert); reflexivity.
Qed.

Lemma for_range_filter_ext {A : Type} (keep : event -> bool) (l : list A)
  (body1 body2 : A -> M unit) :
  (forall x, List.filter keep (trace (body1 x))
             = List.filter keep (trace (body2 x))) ->
  List.filter keep (trace (for_range l body1))
  = List.filter keep (trace (for_range l body2)).
Proof.
  intros Hbody. induction l as [|x rest IH]; simpl; [reflexivity|].
  rewrite !trace_bind, !List.filter_app, Hbody, IH. reflexivity.
Qed.

(** X12.  The clock decides nothing in an assembly but the warnings: at any
    two times [createMSPManager] returns the same result, and its two traces
    are the same once the date warnings are left out; the same certificates
    are checked and registered, in the same order. *)
Theorem createMSPManager_clock (now' : Time) (ctx : Context CS)
  (cfg : ChannelCfg) :
  value (createMSPManager now ctx cfg) = value (createMSPManager now' ctx cfg)
  /\ List.filter (fun e => negb (date_warning e))
       (trace (createMSPManager now ctx cfg))
     = List.filter (fun e => negb (date_warning e))
         (trace (createMSPManager now' ctx cfg)).
Proof.
  destruct (MSPs cfg) as [|c0 rest0] eqn:Hcfg.
  { rewrite !(createMSPManager_nil _ ctx cfg Hcfg). split; reflexivity. }
  assert (Hne : MSPs cfg <> []) by (rewrite Hcfg; discriminate).
  split.
  - rewrite !(value_createMSPManager _ ctx cfg Hne). reflexivity.
  - rewrite !(trace_createMSPManager _ ctx cfg Hne), !List.filter_app.
    f_equal.
    destruct (value (loadMSPs (MSPs cfg) (CryptoSuite ctx))) as [msps|err];
      [|reflexivity].
    destruct (msp.MSPManager_Setup msp.NewMSPManager msps) as [mgr [err|]];
      [reflexivity|].
    apply for_range_filter_ext. intros m.
    rewrite !trace_bind, !List.filter_app.
    assert (Hadd : forall pemCerts,
               List.filter (fun e => negb (date_warning e))
                 (trace (addCertsToConfig now pemCerts))
               = List.filter (fun e => negb (date_warning e))
                   (trace (addCertsToConfig now' pemCerts))).
    { intros pemCerts. rewrite !trace_addCertsToConfig.
      apply addCertsToConfig_loop_clock. }
    rewrite (for_range_filter_ext _ (msp.GetTLSRootCerts m) _ _ Hadd).
    rewrite (for_range_filter_ext _ (msp.GetTLSIntermediateCerts m) _ _ Hadd).
    reflexivity.
Qed.

End MoreProperties.

(** * Properties of the msp test fixture *)

Section IdentityManagerProviderProperties.

Context {Strings : strings.API} {IM : Type}.

(** X13.  [IdentityManager] looks the organization up under its lower-cased
    name only.  With a lower-casing that leaves lower-cased names alone, an
    identity manager stored under a key that is not in lower case is out of
    reach: every query answers as if the entry were not there. *)
Theorem IdentityManager_key_not_lower_case (p : identityManagerProvider IM)
  (key : string) (im : IM) :
  (forall s, strings.ToLower (strings.ToLower s) = strings.ToLower s) ->
  strings.ToLower key <> key ->
  forall orgName,
    IdentityManager {| identityManager := <[key := im]> (identityManager p) |}
      orgName
    = IdentityManager p orgName.
Proof.
  intros Hidem Hkey orgName. unfold IdentityManager. cbn [identityManager].
  rewrite lookup_insert_ne; [reflexivity|].
  intros Heq. apply Hkey. rewrite Heq. apply Hidem.
Qed.

End IdentityManagerProviderProperties.

Section UpdateCAServerURLProperties.

Context {R : Type} (zero : R).
Context {V : Type} (certificateAuthorities_value : gmap string (CAConfig R) -> V).
Context (UnmarshalKey :
  MockConfigBackend V -> string -> option (gmap string (CAConfig R))).

(** X14.  What [updateCAServerURL] stores back, given the CA map read from
    the backend.  The entry [ca.org1.example.com] gets the new URL and keeps
    its other fields.  The entry [ca.org2.example.com] is left as it was,
    URL included: its copy with the new URL goes under the key
    [.ca.org2.example.com], with a leading dot.  Every other entry of the map
    and every other key of the backend is unchanged. *)
Theorem updateCAServerURL_entries (caServerURL : string)
  (backend : MockConfigBackend V) (entries : gmap string (CAConfig R)) :
  UnmarshalKey backend "certificateAuthorities" = Some entries ->
  exists entries' : gmap string (CAConfig R),
    updateCAServerURL zero certificateAuthorities_value UnmarshalKey
      caServerURL backend
    = Some {| KeyValueMap :=
                <["certificateAuthorities" := certificateAuthorities_value entries']>
                  (KeyValueMap backend) |}
    /\ entries' !! "ca.org1.example.com"
       = Some {| URL := caServerURL;
                 other_fields :=
                   other_fields (map_index zero (Some entries) "ca.org1.example.com") |}
    /\ entries' !! "ca.org2.example.com" = entries !! "ca.org2.example.com"
    /\ entries' !! ".ca.org2.example.com"
       = Some {| URL := caServerURL;
                 other_fields :=
                   other_fields (map_index zero (Some entries) "ca.org2.example.com") |}
    /\ forall key,
         key <> "ca.org1.example.com" -> key <> ".ca.org2.example.com" ->
         entries' !! key = entries !! key.
Proof.
  intros Hread. unfold updateCAServerURL. rewrite Hread.
  eexists. split; [reflexivity|].
  split; [|split; [|split]].
  - rewrite lookup_insert_ne by discriminate. apply lookup_insert_eq.
  - rewrite !lookup_insert_ne by discriminate. reflexivity.
  - apply lookup_insert_eq.
  - intros key H1 H2. rewrite !lookup_insert_ne by congruence. reflexivity.
Qed.

End UpdateCAServerURLProperties.

(** ** The further properties on concrete runs *)

Import MspFixture.

(** X1 on an identity that is not a protobuf message. *)
Lemma Validate_returns_date_stage_error_witness :
  let e := errors.Wrap
             (errors.New "proto: cannot parse invalid wire-format data")
             "could not deserialize a SerializedIdentity" in
  value (areCertDatesValid today ["255"%byte]) = Some e
  /\ value (Validate today org1_membership ["255"%byte]) = Some e
  /\ trace (Validate today org1_membership ["255"%byte])
     = trace (areCertDatesValid today ["255"%byte])
       ++ [Log Errorf [AStr "Cert error %v"; AErr e]]
  /\ Forall (fun ev => calls_msp ev = false)
       (trace (Validate today org1_membership ["255"%byte])).
Proof.
  intros e.
  assert (He : value (areCertDatesValid today ["255"%byte]) = Some e)
    by reflexivity.
  split; [exact He|].
  exact (Validate_returns_date_stage_error today org1_membership ["255"%byte] e He).
Defined.

(** X3 on the identity with the current certificate. *)
Lemma Validate_deserializes_after_date_check_witness :
  In (DeserializeIdentity_call current_identity)
    (trace (Validate today org1_membership current_identity))
  /\ current_identity = current_identity
  /\ exists cert rest,
       verifier.ValidateCertificateDates today cert = None
       /\ trace (Validate today org1_membership current_identity)
          = ValidateCertificateDates_call cert
            :: DeserializeIdentity_call current_identity :: rest.
Proof.
  assert (Hin : In (DeserializeIdentity_call current_identity)
                  (trace (Validate today org1_membership current_identity)))
    by (vm_compute; right; left; reflexivity).
  split; [exact Hin|].
  exact (Validate_deserializes_after_date_check today org1_membership
           current_identity current_identity Hin).
Defined.

(** X4 on an identity of MSP [A] with a CERTIFICATE block and an identity of
    MSP [B] whose first block is a PRIVATE KEY block with the same bytes,
    followed by another block. *)
Lemma areCertDatesValid_first_block_bytes_only_witness :
  let id1 := ["A"; "C"; "005"]%byte in
  let id2 := ["B"; "K"; "005"; "C"; "020"]%byte in
  pem.Bytes {| pem.Type_ := "CERTIFICATE"; pem.Headers := ∅;
               pem.Bytes := ["005"%byte] |}
  = pem.Bytes {| pem.Type_ := "PRIVATE KEY"; pem.Headers := ∅;
                 pem.Bytes := ["005"%byte] |}
  /\ areCertDatesValid today id1 = areCertDatesValid today id2.
Proof.
  intros id1 id2. split; [reflexivity|].
  exact (areCertDatesValid_first_block_bytes_only today id1 id2
           {| mb.Mspid := "A"; mb.IdBytes := ["C"; "005"]%byte |}
           {| mb.Mspid := "B"; mb.IdBytes := ["K"; "005"; "C"; "020"]%byte |}
           {| pem.Type_ := "CERTIFICATE"; pem.Headers := ∅;
              pem.Bytes := ["005"%byte] |}
           {| pem.Type_ := "PRIVATE KEY"; pem.Headers := ∅;
              pem.Bytes := ["005"%byte] |}
           [] ["C"; "020"]%byte eq_refl eq_refl eq_refl eq_refl eq_refl).
Defined.

(** X6 on [org1]. *)
Lemma loadMSPs_body_Ok_witness :
  let m := Some {| mb.Name := "A"; mb.RootCerts := [["C"; "020"]%byte];
                   mb.IntermediateCerts := [];
                   mb.OrganizationalUnitIdentifiers := [];
                   mb.TlsRootCerts := [["C"; "020"]%byte];
                   mb.TlsIntermediateCerts := [] |} in
  value (loadMSPs_body org1 tt) = Ok m
  /\ mb.Type_ org1 = msp.FABRIC
  /\ mb.Config org1 <> []
  /\ (exists fabricConfig, getFabricConfig org1 = Ok fabricConfig)
  /\ (exists newMSP,
        msp.NewBccspMsp msp.MSPv1_0 tt = Ok newMSP
        /\ msp.MSP_Setup newMSP org1 = (m, None))
  /\ exists mspID, msp.GetIdentifier m = Ok mspID.
Proof.
  intros m.
  assert (Hm : value (loadMSPs_body org1 tt) = Ok m) by reflexivity.
  split; [exact Hm|].
  exact (loadMSPs_body_Ok (P := Provider) org1 tt m Hm).
Defined.

(** X9 with the manager that takes one MSP, on two configs. *)
Lemma createMSPManager_Setup_failure_witness :
  let cfg := {| MSPs := [org1; org2] |} in
  let err := errors.New "exactly one MSP expected" in
  MSPs cfg <> []
  /\ value (createMSPManager (Mgr := MspFixture.SingleManager) today ctx cfg)
     = Err (errors.WithMessage err "MSPManager Setup failed")
  /\ trace (createMSPManager (Mgr := MspFixture.SingleManager) today ctx cfg)
     = trace (loadMSPs (MSPs cfg) (CryptoSuite ctx)).
Proof.
  intros cfg err.
  assert (Hne : MSPs cfg <> []) by discriminate.
  split; [exact Hne|].
  apply (createMSPManager_Setup_failure (Mgr := MspFixture.SingleManager)
           today ctx cfg
           (match value (loadMSPs (MSPs cfg) (CryptoSuite ctx)) with
            | Ok msps => msps
            | Err _ => []
            end)
           [] err Hne).
  - vm_compute. reflexivity.
  - vm_compute. reflexivity.
Defined.

(** X11 on [org1_stale_tls]: its expired TLS certificate is registered. *)
Lemma createMSPManager_registers_iff_witness :
  let c := {| x509.SerialNumber := 5; x509.NotBefore := 100;
              x509.NotAfter := 500 |} in
  let m := Some {| mb.Name := "A"; mb.RootCerts := [["C"; "020"]%byte];
                   mb.IntermediateCerts := [];
                   mb.OrganizationalUnitIdentifiers := [];
                   mb.TlsRootCerts := [["C"; "005"]%byte];
                   mb.TlsIntermediateCerts := [] |} in
  let cfg := {| MSPs := [org1_stale_tls] |} in
  value (loadMSPs (MSPs cfg) (CryptoSuite ctx)) = Ok [m]
  /\ (In (TLSCACertPool_call c) (trace (createMSPManager today ctx cfg))
      <-> exists m' pemCerts,
            In m' [m]
            /\ In pemCerts (msp.GetTLSRootCerts m' ++ msp.GetTLSIntermediateCerts m')
            /\ carries pemCerts c).
Proof.
  intros c m cfg.
  assert (Hload : value (loadMSPs (MSPs cfg) (CryptoSuite ctx)) = Ok [m])
    by (vm_compute; reflexivity).
  split; [exact Hload|].
  exact (createMSPManager_registers_iff (P := Provider) (Mgr := Manager)
           today ctx cfg [m] (<["A" := m]> ∅) c Hload eq_refl).
Defined.

(** ASCII lower-casing leaves lower-cased names alone. *)
Lemma lower_idempotent (c : Ascii.ascii) :
  MspFixture.lower (MspFixture.lower c) = MspFixture.lower c.
Proof. destruct c as [[] [] [] [] [] [] [] []]; reflexivity. Qed.

Lemma ToLower_idempotent (s : string) :
  MspFixture.ToLower (MspFixture.ToLower s) = MspFixture.ToLower s.
Proof.
  induction s as [|c rest IH]; simpl; [reflexivity|].
  now rewrite lower_idempotent, IH.
Qed.

(** X13 on a manager stored under [Org1]: the query [Org1] itself does not
    find it. *)
Lemma IdentityManager_key_not_lower_case_witness :
  let p : identityManagerProvider nat := {| identityManager := ∅ |} in
  strings.ToLower "Org1" <> "Org1"
  /\ forall orgName,
       IdentityManager {| identityManager := <["Org1" := 7%nat]> (identityManager p) |}
         orgName
       = IdentityManager p orgName.
Proof.
  intros p.
  assert (Hkey : strings.ToLower "Org1" <> "Org1") by (vm_compute; discriminate).
  split; [exact Hkey|].
  exact (IdentityManager_key_not_lower_case (Strings := MspFixture.Strings)
           p "Org1" 7%nat ToLower_idempotent Hkey).
Defined.

Example IdentityManager_lower_case_key :
  IdentityManager (Strings := MspFixture.Strings)
    {| identityManager := {[ "org1" := 7%nat ]} |} "Org1" = (Some 7%nat, true)
  /\ IdentityManager (Strings := MspFixture.Strings)
       {| identityManager := {[ "Org1" := 7%nat ]} |} "Org1" = (None, false).
Proof. split; vm_compute; reflexivity. Qed.

(** X14 on a backend with the two CAs. *)
Lemma updateCAServerURL_entries_witness :
  let entries : gmap string (CAConfig unit) :=
    {[ "ca.org1.example.com" := {| URL := "https://ca1"; other_fields := tt |};
       "ca.org2.example.com" := {| URL := "https://ca2"; other_fields := tt |} ]} in
  MspFixture.UnmarshalKey MspFixture.two_CAs "certificateAuthorities" = Some entries
  /\ exists entries' : gmap string (CAConfig unit),
       updateCAServerURL tt id MspFixture.UnmarshalKey "http://127.0.0.1:7054"
         MspFixture.two_CAs
       = Some {| KeyValueMap :=
                   <["certificateAuthorities" := id entries']>
                     (KeyValueMap MspFixture.two_CAs) |}
       /\ entries' !! "ca.org1.example.com"
          = Some {| URL := "http://127.0.0.1:7054";
                    other_fields :=
                      other_fields (map_index tt (Some entries) "ca.org1.example.com") |}
       /\ entries' !! "ca.org2.example.com" = entries !! "ca.org2.example.com"
       /\ entries' !! ".ca.org2.example.com"
          = Some {| URL := "http://127.0.0.1:7054";
                    other_fields :=
                      other_fields (map_index tt (Some entries) "ca.org2.example.com") |}
       /\ forall key,
            key <> "ca.org1.example.com" -> key <> ".ca.org2.example.com" ->
            entries' !! key = entries !! key.
Proof.
  intros entries.
  assert (Hread : MspFixture.UnmarshalKey MspFixture.two_CAs
                    "certificateAuthorities" = Some entries)
    by (vm_compute; reflexivity).
  split; [exact Hread|].
  exact (updateCAServerURL_entries tt id MspFixture.UnmarshalKey
           "http://127.0.0.1:7054" MspFixture.two_CAs entries Hread).
Defined.

(** After the update the second CA still has its old URL. *)
Example updateCAServerURL_leaves_org2 :
  match updateCAServerURL tt id MspFixture.UnmarshalKey "http://127.0.0.1:7054"
          MspFixture.two_CAs with
  | Some backend =>
      match KeyValueMap backend !! "certificateAuthorities" with
      | Some entries =>
          URL <$> entries !! "ca.org2.example.com" = Some "https://ca2"
          /\ URL <$> entries !! ".ca.org2.example.com"
             = Some "http://127.0.0.1:7054"
      | None => False
      end
  | None => False
  end.
Proof. vm_compute. split; reflexivity. Qed.

(** ** The assembly as a whole, and the errors of undecodable identities *)

Lemma trace_for_range_flat_map {A : Type} (l : list A) (body : A -> M unit) :
  trace (for_range l body) = flat_map (fun x => trace (body x)) l.
Proof.
  induction l as [|x rest IH]; simpl; [reflexivity|].
  now rewrite trace_bind, IH.
Qed.

Section AssemblyProperties.

Context {CS : Type}.
Context {Pem : pem.API} {X509 : x509.API} {Proto : proto.API}.
Context {P : msp.Provider CS} {Mgr : msp.Manager P}.

Variable now : Time.

(** X15.  [createMSPManager] returns a manager in two cases only: the
    configuration has no MSP, and the manager is the new one, not set up; or
    every config builds and the setup of the new manager with the MSPs built,
    in the order of the configs, succeeds, and the manager is the one set
    up. *)
Theorem createMSPManager_Ok_iff (ctx : Context CS) (cfg : ChannelCfg)
  (mgr : msp.MSPManager) :
  value (createMSPManager now ctx cfg) = Ok mgr <->
  (MSPs cfg = [] /\ mgr = msp.NewMSPManager)
  \/ (MSPs cfg <> []
      /\ exists msps,
           Forall2 (fun c m => value (loadMSPs_body c (CryptoSuite ctx)) = Ok m)
             (MSPs cfg) msps
           /\ msp.MSPManager_Setup msp.NewMSPManager msps = (mgr, None)).
Proof.
  destruct (MSPs cfg) as [|c0 rest0] eqn:Hcfg.
  - rewrite (createMSPManager_nil now ctx cfg Hcfg). cbn [value fst]. split.
    + intros [= <-]. left. now split.
    + intros [[_ ->] | [Hne _]]; [reflexivity | contradiction].
  - assert (Hne : MSPs cfg <> []) by (rewrite Hcfg; discriminate).
    rewrite (value_createMSPManager now ctx cfg Hne), value_loadMSPs, Hcfg.
    split.
    + intros Hv. right. split; [discriminate|].
      destruct (value (loadMSPs_loop (c0 :: rest0) (CryptoSuite ctx) []))
        as [msps|err] eqn:Hload; [|discriminate].
      destruct (loadMSPs_loop_Ok _ _ _ _ Hload) as [built [-> Hbuilt]].
      exists built. split; [exact Hbuilt|].
      cbn [app] in Hv.
      destruct (msp.MSPManager_Setup msp.NewMSPManager built) as [m [err|]];
        [discriminate | now injection Hv as <-].
    + intros [[Hnil _] | [_ (msps & Hbuilt & Hsetup)]]; [discriminate|].
      rewrite (loadMSPs_loop_built _ _ _ Hbuilt []). cbn [app].
      rewrite Hsetup. reflexivity.
Qed.

(** X16.  The trace of a successful assembly of a non-empty configuration:
    first the log lines of [loadMSPs]; then, for each MSP in the order of
    the configs, the runs of [addCertsToConfig] on its TLS root certificates
    followed by those on its TLS intermediate certificates, each in the
    order the MSP gives them. *)
Theorem createMSPManager_trace_Ok (ctx : Context CS) (cfg : ChannelCfg)
  (msps : list msp.MSP) (mgr : msp.MSPManager) :
  MSPs cfg <> [] ->
  value (loadMSPs (MSPs cfg) (CryptoSuite ctx)) = Ok msps ->
  msp.MSPManager_Setup msp.NewMSPManager msps = (mgr, None) ->
  trace (createMSPManager now ctx cfg)
  = trace (loadMSPs (MSPs cfg) (CryptoSuite ctx))
    ++ flat_map (fun m =>
         flat_map (fun pemCerts => trace (addCertsToConfig now pemCerts))
           (msp.GetTLSRootCerts m ++ msp.GetTLSIntermediateCerts m)) msps.
Proof.
  intros Hne Hload Hsetup.
  rewrite (trace_createMSPManager now ctx cfg Hne), Hload, Hsetup.
  f_equal. rewrite trace_for_range_flat_map.
  apply flat_map_ext. intros m.
  rewrite trace_bind, !trace_for_range_flat_map, flat_map_app. reflexivity.
Qed.

(** X17.  The errors of [Validate] for an identity that does not decode to a
    certificate.  A serialized identity that is not a protobuf message gives
    the error of the decoder wrapped with a message; an identity without PEM
    block gives a fixed error; a block that is not an X.509 certificate
    gives the error of the parser as it is.  In each case the error is
    logged once with [Errorf] and nothing else happens: no date check, no
    call to the MSP manager. *)
Theorem Validate_decoding_errors (i : identityImpl) (serializedID : bytes) :
  (forall err,
      proto.Unmarshal_SerializedIdentity serializedID = Err err ->
      let e := errors.Wrap err "could not deserialize a SerializedIdentity" in
      Validate now i serializedID
      = (Some e, [Log Errorf [AStr "Cert error %v"; AErr e]]))
  /\ (forall sID rest,
        proto.Unmarshal_SerializedIdentity serializedID = Ok sID ->
        pem.Decode (mb.IdBytes sID) = (None, rest) ->
        let e := errors.New "could not decode the PEM structure" in
        Validate now i serializedID
        = (Some e, [Log Errorf [AStr "Cert error %v"; AErr e]]))
  /\ (forall sID bl rest err,
        proto.Unmarshal_SerializedIdentity serializedID = Ok sID ->
        pem.Decode (mb.IdBytes sID) = (Some bl, rest) ->
        x509.ParseCertificate (pem.Bytes bl) = Err err ->
        Validate now i serializedID
        = (Some err, [Log Errorf [AStr "Cert error %v"; AErr err]])).
Proof.
  unfold Validate, areCertDatesValid. split; [|split].
  - intros err Hsid. rewrite Hsid. reflexivity.
  - intros sID rest Hsid Hpem. rewrite Hsid, Hpem. reflexivity.
  - intros sID bl rest err Hsid Hpem Hparse.
    rewrite Hsid, Hpem. cbn [fst]. rewrite Hparse. reflexivity.
Qed.

End AssemblyProperties.

(** X16 on [org1_stale_tls] followed by [org2]. *)
Lemma createMSPManager_trace_Ok_witness :
  let cfg := {| MSPs := [org1_stale_tls; org2] |} in
  let msps := match value (loadMSPs (MSPs cfg) (CryptoSuite ctx)) with
              | Ok msps => msps
              | Err _ => []
              end in
  (MSPs cfg <> [] /\ length msps = 2%nat)
  /\ trace (createMSPManager today ctx cfg)
     = trace (loadMSPs (MSPs cfg) (CryptoSuite ctx))
       ++ flat_map (fun m =>
            flat_map (fun pemCerts => trace (addCertsToConfig today pemCerts))
              (msp.GetTLSRootCerts m ++ msp.GetTLSIntermediateCerts m)) msps.
Proof.
  intros cfg msps.
  assert (Hne : MSPs cfg <> []) by discriminate.
  split; [split; [exact Hne | reflexivity]|].
  apply (createMSPManager_trace_Ok (P := Provider) (Mgr := Manager) today ctx cfg
           msps
           (match value (assemble today [org1_stale_tls; org2]) with
            | Ok m => m
            | Err _ => ∅
            end) Hne).
  - vm_compute. reflexivity.
  - vm_compute. reflexivity.
Defined.

(** X17 on an identity without PEM block and on one whose block does not
    parse. *)
Example Validate_without_PEM_block :
  Validate today org1_membership ["A"%byte]
  = (Some (errors.New "could not decode the PEM structure"),
     [Log Errorf [AStr "Cert error %v";
                  AErr (errors.New "could not decode the PEM structure")]]).
Proof. vm_compute. reflexivity. Qed.

Example Validate_unparsable_certificate :
  Validate today org1_membership ["A"; "C"; "000"]%byte
  = (Some (errors.New "x509: malformed certificate"),
     [Log Errorf [AStr "Cert error %v";
                  AErr (errors.New "x509: malformed certificate")]]).
Proof. vm_compute. reflexivity. Qed.

(** ** [loadMSPs] on a concatenation *)

Section LoadMSPsComposition.

Context {CS : Type} {Proto : proto.API} {P : msp.Provider CS}.

(** The MSPs the loop starts with are handed through unchanged. *)
Lemma loadMSPs_loop_acc (mspConfigs : list mb.MSPConfig) (cs : CS) :
  forall msps,
    value (loadMSPs_loop mspConfigs cs msps)
    = match value (loadMSPs_loop mspConfigs cs []) with
      | Ok built => Ok (msps ++ built)
      | Err err => Err err
      end.
Proof.
  induction mspConfigs as [|c rest IH]; intros msps; cbn [loadMSPs_loop].
  - cbn. now rewrite app_nil_r.
  - rewrite !value_bind.
    destruct (value (loadMSPs_body c cs)) as [m|err]; [|reflexivity].
    rewrite (IH (msps ++ [m])), (IH ([] ++ [m])).
    destruct (value (loadMSPs_loop rest cs [])) as [built|err]; [|reflexivity].
    now rewrite <- app_assoc.
Qed.

(** X8.  [loadMSPs] on two lists of configs in a row returns what it returns
    on the first list if that is an error, else what it returns on the
    second list if that is an error, else the MSPs of the first list
    followed by those of the second: loading is done config by config, from
    the left, and no config depends on the ones before it. *)
Theorem loadMSPs_app (l1 l2 : list mb.MSPConfig) (cs : CS) :
  value (loadMSPs (l1 ++ l2) cs)
  = match value (loadMSPs l1 cs) with
    | Err err => Err err
    | Ok msps1 =>
        match value (loadMSPs l2 cs) with
        | Err err => Err err
        | Ok msps2 => Ok (msps1 ++ msps2)
        end
    end.
Proof.
  rewrite !value_loadMSPs, loadMSPs_loop_app, value_bind.
  destruct (value (loadMSPs_loop l1 cs [])) as [msps1|err]; [|reflexivity].
  apply loadMSPs_loop_acc.
Qed.

End LoadMSPsComposition.

(** X10 on an input with a certificate that occurs twice, around a key
    block and an expired certificate: three groups of events, in the order
    of the input. *)
Example addCertsToConfig_in_input_order :
  let c20 := {| x509.SerialNumber := 20; x509.NotBefore := 100;
                x509.NotAfter := 2000 |} in
  let c5 := {| x509.SerialNumber := 5; x509.NotBefore := 100;
               x509.NotAfter := 500 |} in
  let pemCerts := ["C"; "020"; "K"; "001"; "C"; "005"; "C"; "020"]%byte in
  carried_in_order pemCerts [c20; c5; c20]
  /\ trace (addCertsToConfig today pemCerts)
     = [ValidateCertificateDates_call c20; TLSCACertPool_call c20;
        ValidateCertificateDates_call c5;
        Log Warn [AStr "%v"; AErr errors.TemporalValidity];
        TLSCACertPool_call c5;
        ValidateCertificateDates_call c20; TLSCACertPool_call c20].
Proof.
  intros c20 c5 pemCerts. split; [|vm_compute; reflexivity].
  eapply carried_cert; [reflexivity | reflexivity | reflexivity |].
  eapply carried_skip; [reflexivity | left; reflexivity |].
  eapply carried_cert; [reflexivity | reflexivity | reflexivity |].
  eapply carried_cert; [reflexivity | reflexivity | reflexivity |].
  eapply carried_end. reflexivity.
Qed.
